(** * UBC Rocket ground station: simulation bridge and telemetry decoder

    A shallow embedding of

    - [connections/sim/sim_connection.py] (class [SimConnection]): the bridge
      that talks to the firmware subprocess over framed pipes, and
    - [main_window/packet_parser.py] (class [PacketParser]): the decoder of
      telemetry subpackets,

    together with the properties of these two classes that the
    specification states.

    Conventions.  Python objects that are mutated in place become records
    threaded through a state-and-exception monad: a raised exception keeps
    the mutations made before it, as in Python.  A byte is a [Byte.byte];
    Python integers are [Z].  A float32 is represented by its IEEE-754
    binary32 bit pattern, a [Z] in the range [0, 2^32).  Calls to the logger,
    to the subprocess handle and to the reader thread are recorded, in order,
    in a trace of events. *)

From Stdlib Require Import ZArith Lia List Bool.
From Stdlib Require Import Strings.Byte Strings.HexString.
From stdpp Require Import base option list gmap strings pretty.

Local Open Scope Z_scope.

(* ===================================================================== *)
(** ** Bytes and integers *)
(* ===================================================================== *)

#[global] Instance byte_eq_dec : EqDecision byte := Byte.byte_eq_dec.

Definition b2z (b : byte) : Z := Z.of_N (Byte.to_N b).

Definition z2b (z : Z) : byte :=
  match Byte.of_N (Z.to_N z) with
  | Some b => b
  | None => x00
  end.

(* ===================================================================== *)
(** ** Exceptions, events and the monad *)
(* ===================================================================== *)

Inductive exn : Type :=
| AssertionError
| IndexError
| KeyError (key : Z)
| ValueError (msg : string)
| OverflowError
| UnicodeDecodeError
| Exception (msg : string).

Inductive result (A : Type) : Type :=
| Ok (a : A)
| Raise (e : exn).
Arguments Ok {A} a.
Arguments Raise {A} e.

Inductive Level : Type := INFO | WARNING | ERROR.

(** What the code does to the outside world, in program order.
    [LogException] is [LOGGER.exception]: an ERROR record carrying the
    exception being handled. *)
Inductive Event : Type :=
| Log (lvl : Level) (msg : string)
| LogException (msg : string) (e : exn)
| Increment (counter : string)
| StdinFlush
| RocketKill
| ThreadJoin.

#[global] Instance exn_eq_dec : EqDecision exn.
Proof. solve_decision. Defined.

#[global] Instance Level_eq_dec : EqDecision Level.
Proof. solve_decision. Defined.

#[global] Instance Event_eq_dec : EqDecision Event.
Proof. solve_decision. Defined.

(** A computation over a mutable state [S] that returns an [A] or raises. *)
Definition M (S A : Type) : Type := S -> S * result A.

Definition ret {S A} (a : A) : M S A := fun s => (s, Ok a).

Definition raise {S A} (e : exn) : M S A := fun s => (s, Raise e).

Definition bind {S A B} (c : M S A) (k : A -> M S B) : M S B :=
  fun s =>
    match c s with
    | (s', Ok a) => k a s'
    | (s', Raise e) => (s', Raise e)
    end.

Definition get {S} : M S S := fun s => (s, Ok s).

Definition modify {S} (f : S -> S) : M S unit := fun s => (f s, Ok tt).

(** [assert cond] *)
Definition assert {S} (cond : bool) : M S unit :=
  if cond then ret tt else raise AssertionError.

(** [try: c  except Exception as e: h e] *)
Definition try_except {S A} (c : M S A) (h : exn -> M S A) : M S A :=
  fun s =>
    match c s with
    | (s', Ok a) => (s', Ok a)
    | (s', Raise e) => h e s'
    end.

(** Lifting a pure fallible value. *)
Definition lift {S A} (r : result A) : M S A := fun s => (s, r).

Declare Scope py_scope.
Delimit Scope py_scope with py.
Notation "'let*' x ':=' c 'in' k" := (bind c (fun x => k))
  (at level 10, x name, c at level 100, k at level 200) : py_scope.
Notation "c1 ';;' c2" := (bind c1 (fun _ => c2))
  (at level 100, c2 at level 200, right associativity) : py_scope.
Local Open Scope py_scope.

(** [seq[0]] on a [bytes] object. *)
Definition index0 {S} (bs : list byte) : M S Z :=
  match bs with
  | b :: _ => ret (b2z b)
  | [] => raise IndexError
  end.

(** The [ValueError] of [a, b = seq] when [seq] has fewer than the
    [expected] elements. *)
Definition unpack_error (expected : nat) (bs : list byte) : exn :=
  ValueError ("not enough values to unpack (expected " +:+ pretty expected
              +:+ ", got " +:+ pretty (length bs) +:+ ")").

(** [int.to_bytes(length, byteorder="big")]: unsigned, raises
    [OverflowError] when the integer is negative or does not fit. *)
Fixpoint be_digits (length : nat) (z : Z) : list byte :=
  match length with
  | O => []
  | S k => z2b ((z / 256 ^ Z.of_nat k) mod 256) :: be_digits k z
  end.

Definition to_bytes (length : nat) (z : Z) : result (list byte) :=
  if (0 <=? z) && (z <? 256 ^ Z.of_nat length)
  then Ok (be_digits length z)
  else Raise OverflowError.

(** The unsigned integer that a byte string spells, most significant byte
    first. *)
Definition be_value (bs : list byte) : Z :=
  fold_left (fun acc b => acc * 256 + b2z b) bs 0.

(** [struct.pack(">f", x)] and [struct.pack("<f", x)] on the bit pattern of
    the float32 [x]. *)
Definition pack_f32 (big_endian : bool) (bits : Z) : list byte :=
  if big_endian then be_digits 4 bits else rev (be_digits 4 bits).

(** [struct.pack(f"{endianness}{n}f", *xs)]: the elements one after the
    other, without padding. *)
Definition struct_pack_floats (big_endian : bool) (xs : list Z) : list byte :=
  concat (map (pack_f32 big_endian) xs).

(** [struct.unpack(">f", b)[0]] and [struct.unpack("<f", b)[0]], as a bit
    pattern; likewise [">I"] and ["<I"], as an unsigned integer. *)
Definition unpack_32 (big_endian : bool) (b : list byte) : Z :=
  if big_endian then be_value b else be_value (rev b).

(** Python's truth value of a field that holds [None], [True] or [False]. *)
Definition truthy (o : option bool) : bool :=
  match o with
  | Some true => true
  | _ => false
  end.

(* ===================================================================== *)
(** ** FrameReader ([StreamFilter]) *)
(* ===================================================================== *)

Definition LOG_HISTORY_SIZE : nat := 500.

(** Modelled from the spec: class [StreamFilter] of
    [connections/sim/stream_filter.py] is not among the sources.  Section
    4.1: [read(n)] returns exactly [n] bytes, or fewer when the source
    closes; a bounded history (its size given at construction) of the raw
    bytes read is kept for diagnostics.  [pending] is what the firmware
    writes before its pipe closes; [history] holds the most recent bytes
    read, oldest first. *)
Record StreamFilter : Type := mkStreamFilter {
  pending : list byte;
  history : list byte;
  history_size : nat
}.

Definition keep_last {A} (n : nat) (l : list A) : list A :=
  drop (length l - n)%nat l.

Definition StreamFilter_read (n : nat) (f : StreamFilter) : StreamFilter * list byte :=
  let got := take n (pending f) in
  ({| pending := drop n (pending f);
      history := keep_last (history_size f) (history f ++ got);
      history_size := history_size f |},
   got).

Definition StreamFilter_getHistory (f : StreamFilter) : list byte := history f.

(* ===================================================================== *)
(** ** Collaborators of the bridge *)
(* ===================================================================== *)

Inductive SensorType : Type :=
| GPS | IMU | ACCELEROMETER | BAROMETER | TEMPERATURE | THERMOCOUPLE.

(** The radio relay ([XBeeModuleSim]) and the hardware model ([HWSim]) are
    collaborators whose code is outside the bridge: they are interfaces
    here, each method a state transformer that returns or raises. *)
Class RadioRelay (X : Type) : Type := {
  send_to_rocket : list byte -> M X unit;
  recieved_from_rocket : list byte -> M X unit;
  relay_shutdown : M X unit
}.

Class HardwareModel (H : Type) : Type := {
  digital_write : Z -> Z -> M H unit;
  analog_read : Z -> M H Z;
  sensor_read : SensorType -> M H (list Z);
  hw_shutdown : M H unit
}.

(* ===================================================================== *)
(** ** The simulation bridge ([SimConnection]) *)
(* ===================================================================== *)

Module SimRxId.
Definition CONFIG : Z := 0x01.
Definition BUZZER : Z := 0x07.
Definition DIGITAL_PIN_WRITE : Z := 0x50.
Definition RADIO : Z := 0x52.
Definition ANALOG_READ : Z := 0x61.
Definition SENSOR_READ : Z := 0x73.
End SimRxId.

Module SimTxId.
Definition RADIO : Z := 0x52.
Definition ANALOG_READ : Z := 0x61.
Definition SENSOR_READ : Z := 0x73.
End SimTxId.

Definition ID_TO_SENSOR : gmap Z SensorType :=
  list_to_map
    [ (0x00, GPS); (0x01, IMU); (0x02, ACCELEROMETER);
      (0x03, BAROMETER); (0x04, TEMPERATURE); (0x05, THERMOCOUPLE) ].

Section Bridge.
Context {X H : Type} `{!RadioRelay X} `{!HardwareModel H}.

(** The fields of a [SimConnection].  [stdin] is every byte written to
    the firmware's input so far; [trace] collects the calls to the
    logger, [rocket.stdin.flush], [rocket.kill] and [thread.join]. *)
Record SimConnection : Type := mkSimConnection {
  hwid : string;
  bigEndianInts : option bool;
  bigEndianFloats : option bool;
  stdout : StreamFilter;
  stdin : list byte;
  _xbee : X;
  _hw_sim : H;
  _is_shutting_down : bool;
  trace : list Event
}.

Definition set_stdout (f : StreamFilter) (c : SimConnection) : SimConnection :=
  {| hwid := hwid c; bigEndianInts := bigEndianInts c;
     bigEndianFloats := bigEndianFloats c; stdout := f; stdin := stdin c;
     _xbee := _xbee c; _hw_sim := _hw_sim c;
     _is_shutting_down := _is_shutting_down c; trace := trace c |}.

Definition set_stdin (bs : list byte) (c : SimConnection) : SimConnection :=
  {| hwid := hwid c; bigEndianInts := bigEndianInts c;
     bigEndianFloats := bigEndianFloats c; stdout := stdout c; stdin := bs;
     _xbee := _xbee c; _hw_sim := _hw_sim c;
     _is_shutting_down := _is_shutting_down c; trace := trace c |}.

Definition set_endian (i f : option bool) (c : SimConnection) : SimConnection :=
  {| hwid := hwid c; bigEndianInts := i; bigEndianFloats := f;
     stdout := stdout c; stdin := stdin c;
     _xbee := _xbee c; _hw_sim := _hw_sim c;
     _is_shutting_down := _is_shutting_down c; trace := trace c |}.

Definition set_xbee (x : X) (c : SimConnection) : SimConnection :=
  {| hwid := hwid c; bigEndianInts := bigEndianInts c;
     bigEndianFloats := bigEndianFloats c; stdout := stdout c;
     stdin := stdin c; _xbee := x; _hw_sim := _hw_sim c;
     _is_shutting_down := _is_shutting_down c; trace := trace c |}.

Definition set_hw_sim (h : H) (c : SimConnection) : SimConnection :=
  {| hwid := hwid c; bigEndianInts := bigEndianInts c;
     bigEndianFloats := bigEndianFloats c; stdout := stdout c;
     stdin := stdin c; _xbee := _xbee c; _hw_sim := h;
     _is_shutting_down := _is_shutting_down c; trace := trace c |}.

Definition set_shutting_down (b : bool) (c : SimConnection) : SimConnection :=
  {| hwid := hwid c; bigEndianInts := bigEndianInts c;
     bigEndianFloats := bigEndianFloats c; stdout := stdout c;
     stdin := stdin c; _xbee := _xbee c; _hw_sim := _hw_sim c;
     _is_shutting_down := b; trace := trace c |}.

Definition emit (e : Event) : M SimConnection unit :=
  modify (fun c =>
    {| hwid := hwid c; bigEndianInts := bigEndianInts c;
       bigEndianFloats := bigEndianFloats c; stdout := stdout c;
       stdin := stdin c; _xbee := _xbee c; _hw_sim := _hw_sim c;
       _is_shutting_down := _is_shutting_down c;
       trace := trace c ++ [e] |}).

(** [self.stdout.read(n)] *)
Definition stdout_read (n : nat) : M SimConnection (list byte) :=
  fun c =>
    let '(f, got) := StreamFilter_read n (stdout c) in
    (set_stdout f c, Ok got).

(** The connection after [got] has been read, [rest] still unread. *)
Definition consumed (got rest : list byte) (c : SimConnection) : SimConnection :=
  set_stdout
    {| pending := rest;
       history := keep_last (history_size (stdout c)) (history (stdout c) ++ got);
       history_size := history_size (stdout c) |} c.

(** Running a method of [self._xbee] or [self._hw_sim]. *)
Definition on_xbee {A} (m : M X A) : M SimConnection A :=
  fun c => let '(x, r) := m (_xbee c) in (set_xbee x c, r).

Definition on_hw_sim {A} (m : M H A) : M SimConnection A :=
  fun c => let '(h, r) := m (_hw_sim c) in (set_hw_sim h c, r).

Definition _getLength : M SimConnection Z :=
  let* bs := stdout_read 2 in
  match bs with
  | [msb; lsb] => ret (Z.lor (Z.shiftl (b2z msb) 8) (b2z lsb))
  | _ => raise (unpack_error 2 bs)
  end.

Definition info_endianness (i f : bool) (id : string) : string :=
  "SIM: Big Endian Ints - " +:+ (if i then "True" else "False")
  +:+ ", Big Endian Floats - " +:+ (if f then "True" else "False")
  +:+ " (HWID=" +:+ id +:+ ")".

(** AKA handle "Config" packet *)
Definition _getEndianness : M SimConnection unit :=
  let* b := stdout_read 1 in
  let* id := index0 b in
  assert (id =? SimRxId.CONFIG) ;;
  let* length := _getLength in
  assert (length =? 8) ;;
  let* data := stdout_read (Z.to_nat length) in
  let* d0 := lift (from_option Ok (Raise IndexError) (b2z <$> data !! 0%nat)) in
  let i := d0 =? 0x04 in
  modify (fun c => set_endian (Some i) (bigEndianFloats c) c) ;;
  let* d4 := lift (from_option Ok (Raise IndexError) (b2z <$> data !! 4%nat)) in
  let f := d4 =? 0xC0 in
  modify (fun c => set_endian (bigEndianInts c) (Some f) c) ;;
  let* c := get in
  emit (Log INFO (info_endianness i f (hwid c))).

Definition _rocket_handshake : M SimConnection unit :=
  let* syn := stdout_read 3 in
  assert (bool_decide (syn = [x53; x59; x4e])) ;;   (* b"SYN" *)
  modify (fun c => set_stdin (stdin c ++ [x41; x43; x4b]) c) ;;  (* b"ACK" *)
  emit StdinFlush.

Definition broadcast (data : list byte) : M SimConnection unit :=
  on_xbee (send_to_rocket data).

Definition send (hwid_ : string) (data : list byte) : M SimConnection unit :=
  let* c := get in
  if negb (String.eqb hwid_ (hwid c))
  then raise (Exception ("Connection does not support HWID=" +:+ hwid_))
  else broadcast data.

(** [for b in packet: self.rocket.stdin.write(bytes([b]))] *)
Definition stdin_write_each (packet : list byte) : M SimConnection unit :=
  fold_right
    (fun b rest => (modify (fun c => set_stdin (stdin c ++ [b]) c) ;; rest)%py)
    (ret tt) packet.

Definition _send_sim_packet (id_ : Z) (data : list byte) : M SimConnection unit :=
  let* id_ := lift (to_bytes 1 id_) in
  let* length := lift (to_bytes 2 (Z.of_nat (length data))) in
  let packet := id_ ++ length ++ data in
  stdin_write_each packet ;;
  emit StdinFlush.

Definition _send_radio_sim (data : list byte) : M SimConnection unit :=
  _send_sim_packet SimTxId.RADIO data.

Definition _handleBuzzer : M SimConnection unit :=
  let* length := _getLength in
  assert (length =? 1) ;;
  let* data := stdout_read (Z.to_nat length) in
  let* songType := index0 data in
  let* c := get in
  emit (Log INFO ("SIM: Bell rang with song type " +:+ pretty songType
                  +:+ " (HWID=" +:+ hwid c +:+ ")")).

Definition _handleDigitalPinWrite : M SimConnection unit :=
  let* length := _getLength in
  assert (length =? 2) ;;
  let* pv := stdout_read 2 in
  match pv with
  | [pin; value] =>
      on_hw_sim (digital_write (b2z pin) (b2z value)) ;;
      let* c := get in
      emit (Log INFO ("SIM: Pin " +:+ pretty (b2z pin) +:+ " set to "
                      +:+ pretty (b2z value) +:+ " (HWID=" +:+ hwid c +:+ ")"))
  | _ => raise (unpack_error 2 pv)
  end.

Definition _handleRadio : M SimConnection unit :=
  let* length := _getLength in
  let* c := get in
  (if length =? 0
   then emit (Log WARNING ("Empty SIM radio packet received (HWID="
                           +:+ hwid c +:+ ")"))
   else ret tt) ;;
  let* data := stdout_read (Z.to_nat length) in
  on_xbee (recieved_from_rocket data).

Definition _handleAnalogRead : M SimConnection unit :=
  let* length := _getLength in
  assert (length =? 1) ;;
  let* data := stdout_read (Z.to_nat length) in
  let* pin := index0 data in
  let* value := on_hw_sim (analog_read pin) in
  let* result := lift (to_bytes 2 value) in
  _send_sim_packet SimTxId.ANALOG_READ result.

(** The bytes that [_handleSensorRead] packs for a reading vector. *)
Definition sensor_read_payload (bigEndianFloats : option bool)
    (sensor_data : list Z) : list byte :=
  let endianness := truthy bigEndianFloats in
  struct_pack_floats endianness sensor_data.

Definition _handleSensorRead : M SimConnection unit :=
  let* length := _getLength in
  assert (length =? 1) ;;
  let* data := stdout_read (Z.to_nat length) in
  let* sensor_id := index0 data in
  let* kind := lift (from_option Ok (Raise (KeyError sensor_id))
                                 (ID_TO_SENSOR !! sensor_id)) in
  let* sensor_data := on_hw_sim (sensor_read kind) in
  let* c := get in
  let result := sensor_read_payload (bigEndianFloats c) sensor_data in
  _send_sim_packet SimTxId.SENSOR_READ result.

(** DO NOT HANDLE "CONFIG" - it should be received only once at the start *)
Definition packetHandlers : gmap Z (M SimConnection unit) :=
  list_to_map
    [ (SimRxId.BUZZER, _handleBuzzer);
      (SimRxId.DIGITAL_PIN_WRITE, _handleDigitalPinWrite);
      (SimRxId.RADIO, _handleRadio);
      (SimRxId.ANALOG_READ, _handleAnalogRead);
      (SimRxId.SENSOR_READ, _handleSensorRead) ].

Definition violation_msg (id : string) : string :=
  "SIM protocol violation!!! Shutting down. (HWID=" +:+ id +:+ ")".

(** The three [LOGGER.error] steps of the violation branch, for a given
    history. *)
Definition violation_report (id : string) (hist : list byte) : list Event :=
  Log ERROR (violation_msg id)
  :: map (fun b => Log ERROR (HexString.of_Z (b2z b))) hist
  ++ [Log ERROR "^^^^ violation."].

Definition log_history : M SimConnection unit :=
  let* c := get in
  fold_right
    (fun b rest => (emit (Log ERROR (HexString.of_Z (b2z b))) ;; rest)%py)
    (ret tt) (StreamFilter_getHistory (stdout c)).

(** One pass through the body of [while True].  The value [true] is the
    [return] of the violation branch; [false] goes round again. *)
Definition _run_body : M SimConnection bool :=
  let* b := stdout_read 1 in
  let* id := index0 b in
  match packetHandlers !! id with
  | None =>
      let* c := get in
      emit (Log ERROR (violation_msg (hwid c))) ;;
      log_history ;;
      emit (Log ERROR "^^^^ violation.") ;;
      ret true
  | Some handler =>
      handler ;;
      ret false
  end.

(** How the loop was left: by the [return], by an exception, or (in the
    model only) because [fuel] passes were not enough. *)
Inductive LoopExit : Type :=
| Returned
| Excepted (ex : exn)
| OutOfFuel.

Fixpoint _run_loop (fuel : nat) : M SimConnection LoopExit :=
  match fuel with
  | O => ret OutOfFuel
  | S fuel' =>
      let* stop := _run_body in
      if stop then ret Returned else _run_loop fuel'
  end.

Definition _run (fuel : nat) : M SimConnection LoopExit :=
  let* exit :=
    try_except (_run_loop fuel)
      (fun ex =>
         let* c := get in   (* under [self._shutdown_lock] *)
         (if negb (_is_shutting_down c)
          then emit (LogException
                       ("Error in SIM connection. (HWID=" +:+ hwid c +:+ ")") ex)
          else ret tt) ;;
         ret (Excepted ex)) in
  match exit with
  | Excepted _ =>
      let* c := get in
      emit (Log WARNING ("SIM connection thread shut down (HWID="
                         +:+ hwid c +:+ ")")) ;;
      ret exit
  | _ => ret exit
  end.

Definition shutdown : M SimConnection unit :=
  modify (set_shutting_down true) ;;   (* under [self._shutdown_lock] *)
  on_xbee relay_shutdown ;;
  on_hw_sim hw_shutdown ;;
  emit RocketKill ;;
  emit ThreadJoin.


(** [__init__], from the point where the subprocess has been launched:
    [out] is what the firmware writes to its standard output, [xbee] a
    freshly made relay.  The reader thread it starts is [_run]. *)
Definition SimConnection_init (executable_name : string) (hw_sim : H) (xbee : X)
    (out : list byte) : SimConnection * result unit :=
  (_rocket_handshake ;; _getEndianness)
    {| hwid := executable_name +:+ "SIM_CONN_HWID";
       bigEndianInts := None;
       bigEndianFloats := None;
       stdout := {| pending := out; history := [];
                    history_size := LOG_HISTORY_SIZE |};
       stdin := [];
       _xbee := xbee;
       _hw_sim := hw_sim;
       _is_shutting_down := false;
       trace := [] |}.

(** *** What a run does to a connection

    [steady c c'] relates a connection to a later state of itself in which
    the identity, both endianness flags and the shutdown guard are the
    same, nothing was put back into the firmware's output, and the trace
    grew by records none of which is logged at ERROR level.  [keeps m] says
    that the computation [m] always takes a connection to such a later
    state, whether it returns or raises. *)
Definition is_error_record (e : Event) : bool :=
  match e with
  | Log ERROR _ => true
  | _ => false
  end.

Record steady (c c' : SimConnection) : Prop := mkSteady {
  steady_hwid : hwid c' = hwid c;
  steady_ints : bigEndianInts c' = bigEndianInts c;
  steady_floats : bigEndianFloats c' = bigEndianFloats c;
  steady_guard : _is_shutting_down c' = _is_shutting_down c;
  steady_pending :
    (length (pending (stdout c')) <= length (pending (stdout c)))%nat;
  steady_trace :
    exists added,
      trace c' = trace c ++ added
      /\ forallb (fun e => negb (is_error_record e)) added = true
}.

Definition keeps {A} (m : M SimConnection A) : Prop :=
  forall c, steady c (m c).1.

(** The number of violation reports in a stretch of the trace: the records
    that open one. *)
Definition opens_violation_report (id : string) (e : Event) : bool :=
  bool_decide (e = Log ERROR (violation_msg id)).

Definition violation_reports (id : string) (evs : list Event) : nat :=
  length (List.filter (opens_violation_report id) evs).

(** The connection right after the loop has met the unhandled opcode byte
    [b], with [rest] still unread. *)
Definition violated (c : SimConnection) (b : byte) (rest : list byte) : SimConnection :=
  let hist := keep_last (history_size (stdout c)) (history (stdout c) ++ [b]) in
  {| hwid := hwid c;
     bigEndianInts := bigEndianInts c;
     bigEndianFloats := bigEndianFloats c;
     stdout := {| pending := rest; history := hist;
                  history_size := history_size (stdout c) |};
     stdin := stdin c;
     _xbee := _xbee c;
     _hw_sim := _hw_sim c;
     _is_shutting_down := _is_shutting_down c;
     trace := trace c ++ violation_report (hwid c) hist |}.

(** The connection after [n] more frames, each taken by a handler that
    returned. *)
Fixpoint after_frames (n : nat) (c : SimConnection) : option SimConnection :=
  match n with
  | O => Some c
  | S n' =>
      match _run_body c with
      | (c', Ok false) => after_frames n' c'
      | _ => None
      end
  end.

(** Returns whether ints should be decoded as big endian *)
Definition isIntBigEndian : M SimConnection bool :=
  let* c := get in
  match bigEndianInts c with
  | None => raise AssertionError   (* [assert self.bigEndianInts is not None] *)
  | Some b => ret b
  end.

(** Returns whether floats should be decoded as big endian *)
Definition isFloatBigEndian : M SimConnection bool :=
  let* c := get in
  match bigEndianFloats c with
  | None => raise AssertionError   (* [assert self.bigEndianFloats is not None] *)
  | Some b => ret b
  end.

(** The two records with which [_run] leaves through its [except] branch:
    the first only when no shutdown is under way. *)
Definition exception_records (c : SimConnection) (ex : exn) : list Event :=
  (if negb (_is_shutting_down c)
   then [LogException ("Error in SIM connection. (HWID=" +:+ hwid c +:+ ")") ex]
   else [])
  ++ [Log WARNING ("SIM connection thread shut down (HWID=" +:+ hwid c +:+ ")")].

(** The opcodes whose handlers assert the length of the payload, each
    with the length it asserts. *)
Definition asserted_lengths : list (byte * Z) :=
  [ (x07, 1); (x50, 2); (x61, 1); (x73, 1) ].

(** The record of [_handleRadio] for a frame without payload. *)
Definition empty_radio_warning (id : string) : Event :=
  Log WARNING ("Empty SIM radio packet received (HWID=" +:+ id +:+ ")").

(** [advances c c']: in [c'] the firmware's output has been read further
    (what is unread is an end piece of what was unread), and the bytes
    written to the firmware and the trace have only grown at their ends.
    [moves_on m] says that [m] always takes a connection to such a state. *)
Record advances (c c' : SimConnection) : Prop := mkAdvances {
  advances_pending : pending (stdout c') `suffix_of` pending (stdout c);
  advances_stdin : stdin c `prefix_of` stdin c';
  advances_trace : trace c `prefix_of` trace c'
}.

Definition moves_on {A} (m : M SimConnection A) : Prop :=
  forall c, advances c (m c).1.

End Bridge.

(* ===================================================================== *)
(** ** The telemetry decoder ([PacketParser]) *)
(* ===================================================================== *)

Inductive DeviceType : Type :=
| TANTALUS_STAGE_1 | TANTALUS_STAGE_2 | CO_PILOT.

Definition DeviceType_str (d : DeviceType) : string :=
  match d with
  | TANTALUS_STAGE_1 => "DeviceType.TANTALUS_STAGE_1"
  | TANTALUS_STAGE_2 => "DeviceType.TANTALUS_STAGE_2"
  | CO_PILOT => "DeviceType.CO_PILOT"
  end.

(** Module [main_window/subpacket_ids.py] is not among the sources.  What
    the decoder uses of it is a parameter: the values of the members of
    [SubpacketEnum] it names, the test [isSubpacketID] and the list
    [get_list_of_sensor_IDs()]. *)
Record SubpacketIds : Type := mkSubpacketIds {
  SubpacketEnum_MESSAGE : Z;
  SubpacketEnum_EVENT : Z;
  SubpacketEnum_CONFIG : Z;
  SubpacketEnum_TIME : Z;
  isSubpacketID : Z -> bool;
  get_list_of_sensor_IDs : list Z
}.

Record Header : Type := mkHeader {
  subpacket_id : Z;
  timestamp : Z
}.

(** Values stored in a decoded record.  A float is its binary32 bit
    pattern. *)
Inductive Value : Type :=
| VInt (z : Z)
| VBool (b : bool)
| VStr (s : string)
| VFloat (bits : Z)
| VDevice (d : DeviceType).

(** Keys of a decoded record are integers (subpacket ids) or strings. *)
Abbreviation Key := (Z + string)%type.
Abbreviation Dict := (gmap Key Value).

Definition DEVICE_TYPE : string := "ROCKET_TYPE".
Definition IS_SIM : string := "IS_SIM".
Definition VERSION_ID : string := "VERSION_ID".
Definition VERSION_ID_LEN : nat := 40.

Definition ID_TO_DEVICE : gmap Z DeviceType :=
  list_to_map
    [ (0x00, TANTALUS_STAGE_1); (0x01, TANTALUS_STAGE_2); (0x02, CO_PILOT) ].

(** [bytes.decode('ascii')] *)
Definition decode_ascii (bs : list byte) : result string :=
  if forallb (fun b => b2z b <? 128) bs
  then Ok (String.string_of_list_byte bs)
  else Raise UnicodeDecodeError.

(** An entry of the registry [packetTypeToParser]: one of the decoder's own
    methods, or a function bound later with [register_packet], which works
    on the byte stream. *)
Inductive ParserFn : Type :=
| Bound_message
| Bound_event
| Bound_config
| Bound_single_sensor
| Registered (parsing_fn : Header -> M (list byte) Dict).

Record PacketParser : Type := mkPacketParser {
  big_endian_ints : option bool;
  big_endian_floats : option bool;
  packetTypeToParser : gmap Z ParserFn
}.

(** A decoder at work: the object itself, the [BytesIO] it was handed, and
    the calls to the logger and the event counters. *)
Record Decoding : Type := mkDecoding {
  self : PacketParser;
  byte_stream : list byte;
  emitted : list Event
}.

(** [a << n] and [a >> n] on Python integers: a negative count raises. *)
Definition py_lshift (a n : Z) : result Z :=
  if n <? 0 then Raise (ValueError "negative shift count") else Ok (Z.shiftl a n).

Definition py_rshift (a n : Z) : result Z :=
  if n <? 0 then Raise (ValueError "negative shift count") else Ok (Z.shiftr a n).

(** Helper function. Extract bit at position targetIndex. 0 based index. *)
Definition bitfrombyte (val targetIndex : Z) : result Z :=
  match py_lshift 1 targetIndex with
  | Raise e => Raise e
  | Ok mask =>
      let bit := Z.land val mask in
      py_rshift bit targetIndex
  end.

Section Decoder.
Variable ids : SubpacketIds.

Definition PacketParser_init : PacketParser :=
  {| big_endian_ints := None;
     big_endian_floats := None;
     packetTypeToParser :=
       fold_left (fun m i => <[i := Bound_single_sensor]> m)
         (get_list_of_sensor_IDs ids)
         (<[SubpacketEnum_CONFIG ids := Bound_config]>
            (<[SubpacketEnum_EVENT ids := Bound_event]>
               (<[SubpacketEnum_MESSAGE ids := Bound_message]> ∅))) |}.

Definition set_endianness (big_endian_ints_ big_endian_floats_ : option bool)
    (p : PacketParser) : PacketParser :=
  {| big_endian_ints := big_endian_ints_;
     big_endian_floats := big_endian_floats_;
     packetTypeToParser := packetTypeToParser p |}.

Definition register_packet (packetType : Z)
    (parsing_fn : Header -> M (list byte) Dict) (p : PacketParser) : PacketParser :=
  {| big_endian_ints := big_endian_ints p;
     big_endian_floats := big_endian_floats p;
     packetTypeToParser := <[packetType := Registered parsing_fn]> (packetTypeToParser p) |}.

Definition say (e : Event) : M Decoding unit :=
  modify (fun d => {| self := self d; byte_stream := byte_stream d;
                      emitted := emitted d ++ [e] |}).

(** [byte_stream.read(n)] on a [BytesIO]: up to [n] bytes. *)
Definition read (n : nat) : M Decoding (list byte) :=
  fun d => ({| self := self d; byte_stream := drop n (byte_stream d);
               emitted := emitted d |},
            Ok (take n (byte_stream d))).

Definition fourtofloat (byte_list : list byte) : M Decoding Z :=
  assert (length byte_list =? 4)%nat ;;
  let* d := get in
  ret (unpack_32 (truthy (big_endian_floats (self d))) byte_list).

Definition fourtoint (byte_list : list byte) : M Decoding Z :=
  assert (length byte_list =? 4)%nat ;;
  let* d := get in
  ret (unpack_32 (truthy (big_endian_ints (self d))) byte_list).

Definition invalid_id_msg (id : Z) : string :=
  "Subpacket id " +:+ pretty id +:+ " not valid.".

Definition header : M Decoding Header :=
  let* b := read 1 in
  let* subpacket_id := index0 b in
  (if negb (isSubpacketID ids subpacket_id)
   then say (Log ERROR (invalid_id_msg subpacket_id)) ;;
        raise (ValueError (invalid_id_msg subpacket_id))
   else ret tt) ;;
  let* ts := read 4 in
  let* timestamp := fourtoint ts in
  ret {| subpacket_id := subpacket_id; timestamp := timestamp |}.

Definition message (header : Header) : M Decoding Dict :=
  let data : Dict := ∅ in
  let* b := read 1 in
  let* length := index0 b in
  let* byte_data := read (Z.to_nat length) in
  let* text := lift (decode_ascii byte_data) in
  let data := <[inl (SubpacketEnum_MESSAGE ids) := VStr text]> data in
  say (Log INFO ("Incoming message: " +:+ text)) ;;
  ret data.

Definition event (header : Header) : M Decoding Dict :=
  let data : Dict := ∅ in
  let* b := read 1 in
  let* code := index0 b in
  ret (<[inl (SubpacketEnum_EVENT ids) := VInt code]> data).

Definition config (header : Header) : M Decoding Dict :=
  let data : Dict := ∅ in
  let* b := read 1 in
  let* is_sim := index0 b in
  let data := <[inr IS_SIM := VBool (negb (is_sim =? 0))]> data in
  let* b := read 1 in
  let* device_id := index0 b in
  let* device := lift (from_option Ok (Raise (KeyError device_id))
                                   (ID_TO_DEVICE !! device_id)) in
  let data := <[inr DEVICE_TYPE := VDevice device]> data in
  let* version_id := read VERSION_ID_LEN in
  let* version := lift (decode_ascii version_id) in
  let data := <[inr VERSION_ID := VStr version]> data in
  say (Log INFO ("Config: SIM? " +:+ (if negb (is_sim =? 0) then "True" else "False")
                 +:+ ", Rocket type = " +:+ DeviceType_str device
                 +:+ ", Version ID = " +:+ version)) ;;
  say (Increment "config") ;;
  ret data.

Definition single_sensor (header : Header) : M Decoding Dict :=
  let subpacket_id := subpacket_id header in
  let data : Dict := ∅ in
  let* b := read 4 in
  let* value := fourtofloat b in
  let data := <[inl subpacket_id := VFloat value]> data in
  say (Increment "single_sensor") ;;
  ret data.

(** Calling an entry of the registry on [(byte_stream, header)]. *)
Definition call_parser (fn : ParserFn) (header : Header) : M Decoding Dict :=
  match fn with
  | Bound_message => message header
  | Bound_event => event header
  | Bound_config => config header
  | Bound_single_sensor => single_sensor header
  | Registered parsing_fn =>
      fun d =>
        let '(bs, r) := parsing_fn header (byte_stream d) in
        ({| self := self d; byte_stream := bs; emitted := emitted d |}, r)
  end.

Definition parse_data (header : Header) : M Decoding Dict :=
  let* d := get in
  match packetTypeToParser (self d) !! subpacket_id header with
  | Some fn => call_parser fn header
  | None => raise (KeyError (subpacket_id header))
  end.

Definition clear_endianness : M Decoding unit :=
  modify (fun d => {| self := set_endianness None None (self d);
                      byte_stream := byte_stream d;
                      emitted := emitted d |}).

Definition extract : M Decoding Dict :=
  let* d := get in
  (if bool_decide (big_endian_ints (self d) = None)
      || bool_decide (big_endian_floats (self d) = None)
   then raise (Exception "Endianness not set before parsing")
   else ret tt) ;;
  (* header extraction *)
  let* header := header in
  (* data extraction *)
  let* parsed_data :=
    try_except (parse_data header)
      (fun e => say (LogException "Error parsing data" e) ;; ret ∅) in
  let parsed_data := <[inl (SubpacketEnum_TIME ids) := VInt (timestamp header)]> parsed_data in
  clear_endianness ;;
  ret parsed_data.

(** Decoding [n] consecutive 4-byte groups of the stream, each as the
    payload of a single-sensor subpacket with the given header. *)
Fixpoint single_sensor_each (n : nat) (header : Header) : M Decoding (list Dict) :=
  match n with
  | O => ret []
  | S n' =>
      let* r := single_sensor header in
      let* rs := single_sensor_each n' header in
      ret (r :: rs)
  end.

(** The decoder object comes out of [m] as it went in, whether [m] returns
    or raises. *)
Definition keeps_self {A} (m : M Decoding A) : Prop :=
  forall d, self (m d).1 = self d.

(** The state in which [extract] returns: the endianness forgotten. *)
Definition cleared (d : Decoding) : Decoding :=
  {| self := set_endianness None None (self d);
     byte_stream := byte_stream d;
     emitted := emitted d |}.

End Decoder.

(* ===================================================================== *)
(** ** Stand-ins for the collaborators, used in the examples *)
(* ===================================================================== *)

(** A relay that only records what it is asked to carry. *)
Record RecordingRelay : Type := mkRecordingRelay {
  to_rocket : list (list byte);
  from_rocket : list (list byte);
  relay_stopped : bool
}.

#[global] Instance RecordingRelay_relay : RadioRelay RecordingRelay := {|
  send_to_rocket data :=
    modify (fun x => {| to_rocket := to_rocket x ++ [data];
                        from_rocket := from_rocket x;
                        relay_stopped := relay_stopped x |});
  recieved_from_rocket data :=
    modify (fun x => {| to_rocket := to_rocket x;
                        from_rocket := from_rocket x ++ [data];
                        relay_stopped := relay_stopped x |});
  relay_shutdown :=
    modify (fun x => {| to_rocket := to_rocket x;
                        from_rocket := from_rocket x;
                        relay_stopped := true |})
|}.

(** A hardware model with one analog value and one reading vector. *)
Record FixedHw : Type := mkFixedHw {
  analog_value : Z;
  reading : list Z;
  pin_writes : list (Z * Z);
  hw_stopped : bool
}.

#[global] Instance FixedHw_model : HardwareModel FixedHw := {|
  digital_write pin value :=
    modify (fun h => {| analog_value := analog_value h; reading := reading h;
                        pin_writes := pin_writes h ++ [(pin, value)];
                        hw_stopped := hw_stopped h |});
  analog_read pin := fun h => (h, Ok (analog_value h));
  sensor_read kind := fun h => (h, Ok (reading h));
  hw_shutdown :=
    modify (fun h => {| analog_value := analog_value h; reading := reading h;
                        pin_writes := pin_writes h; hw_stopped := true |})
|}.

Definition idle_relay : RecordingRelay :=
  {| to_rocket := []; from_rocket := []; relay_stopped := false |}.

Definition fixed_hw (analog : Z) (vector : list Z) : FixedHw :=
  {| analog_value := analog; reading := vector; pin_writes := [];
     hw_stopped := false |}.

(** A running connection (negotiation done, both orders big-endian) whose
    firmware is about to write [out]. *)
Definition running (hw : FixedHw) (out : list byte)
  : @SimConnection RecordingRelay FixedHw :=
  {| hwid := "tantalus_stage_1SIM_CONN_HWID";
     bigEndianInts := Some true;
     bigEndianFloats := Some true;
     stdout := {| pending := out; history := [];
                  history_size := LOG_HISTORY_SIZE |};
     stdin := [];
     _xbee := idle_relay;
     _hw_sim := hw;
     _is_shutting_down := false;
     trace := [] |}.

(** The same connection while it awaits the Config frame. *)
Definition awaiting_config (hw : FixedHw) (out : list byte)
  : @SimConnection RecordingRelay FixedHw :=
  set_endian None None (running hw out).

(** The subpacket ids used in the examples: [SubpacketEnum] members 1, 2, 3
    for messages, events and configuration, the single-sensor range of
    [data_entry_id.py] (0x10 to 0x2F), the time stamp inside that range, and
    [isSubpacketID] accepting these and nothing else. *)
Definition MIN_SINGLE_SENSOR_ID : Z := 0x10.
Definition MAX_SINGLE_SENSOR_ID : Z := 0x2F.

Definition example_ids : SubpacketIds :=
  {| SubpacketEnum_MESSAGE := 0x01;
     SubpacketEnum_EVENT := 0x02;
     SubpacketEnum_CONFIG := 0x03;
     SubpacketEnum_TIME := 0x1D;
     isSubpacketID id :=
       (1 <=? id) && (id <=? 3)
       || (MIN_SINGLE_SENSOR_ID <=? id) && (id <=? MAX_SINGLE_SENSOR_ID);
     get_list_of_sensor_IDs :=
       map (fun k => MIN_SINGLE_SENSOR_ID + Z.of_nat k)
           (seq 0 (Z.to_nat (MAX_SINGLE_SENSOR_ID - MIN_SINGLE_SENSOR_ID + 1))) |}.

(* ===================================================================== *)
(** ** Locating the firmware ([SimConnection._find_executable]) *)
(* ===================================================================== *)

(** The exception [FirmwareNotFound] with its message, and what
    [_find_executable] stores in the connection when it returns. *)
Inductive FirmwareNotFound : Type :=
| mkFirmwareNotFound (msg : string).

Record Executable : Type := mkExecutable {
  executablePath : string;
  firmwareDir : string
}.

Section FindExecutable.
(** [LOCAL] and [EXECUTABLE_FILE_EXTENSION] of [util.detail], and the
    three operations on paths: [Path(p).parent], [os.path.join] and
    [os.path.exists]. *)
Variable LOCAL : string.
Variable EXECUTABLE_FILE_EXTENSION : string.
Variable parent : string -> string.
Variable join : string -> string -> string.
Variable path_exists : string -> bool.

Definition flare_path : string :=
  join (join (join (parent LOCAL) "FLARE") "avionics") "build".

Definition local_path : string := join LOCAL "FW".

Definition local_name : string := "program" +:+ EXECUTABLE_FILE_EXTENSION.

Definition _find_executable (executable_name : string)
  : FirmwareNotFound + Executable :=
  (* Check FW (child) dir and FLARE (neighbour) dir for rocket build files.
     If multiple build files found throw exception *)
  let neighbour_build_file := executable_name +:+ EXECUTABLE_FILE_EXTENSION in
  let neighbour_build_file_exists :=
    path_exists (join flare_path neighbour_build_file) in
  let child_build_file_exists := path_exists (join local_path local_name) in
  if child_build_file_exists && neighbour_build_file_exists
  then inl (mkFirmwareNotFound
              ("Multiple build files found: " +:+ neighbour_build_file
               +:+ " and " +:+ local_name))
  else if neighbour_build_file_exists
  then inr {| executablePath := join flare_path neighbour_build_file;
              firmwareDir := flare_path |}
  else if child_build_file_exists
  then inr {| executablePath := join local_path local_name;
              firmwareDir := local_path |}
  else inl (mkFirmwareNotFound
              ("No build files found with name " +:+ executable_name)).

End FindExecutable.

(* ===================================================================== *)
(** ** Rocket profiles ([RocketProfile.update_labels]) *)
(* ===================================================================== *)

Section Profile.
(** The part of the main window that labels read (rocket data and the
    like) is a parameter; [widgets] holds, for each attribute of the window
    that is a text widget, the text it shows. *)
Variable AppData : Type.

Record MainWindow : Type := mkMainWindow {
  widgets : gmap string string;
  app_data : AppData
}.

(** A [Label]: its name and what [label.update(main_window)] computes. *)
Record Label : Type := mkLabel {
  label_name : string;
  label_update : MainWindow -> string
}.

(** [widget.setText(text)] on the attribute [attr] of the window. *)
Definition setText (attr text : string) (w : MainWindow) : MainWindow :=
  {| widgets := <[attr := text]> (widgets w); app_data := app_data w |}.

(** The loop of [update_labels]; [inl attr] is the [AttributeError] of
    [getattr] for the missing attribute [attr], raised with the window as
    the labels before it left it. *)
Fixpoint update_labels (labels : list Label) (main_window : MainWindow)
  : MainWindow * (string + unit) :=
  match labels with
  | [] => (main_window, inr tt)
  | label :: labels' =>
      let attr := label_name label +:+ "Label" in
      match widgets main_window !! attr with
      | None => (main_window, inl attr)
      | Some _ =>
          update_labels labels'
            (setText attr (label_update label main_window) main_window)
      end
  end.

(** The attribute of the window that holds the widget of a label. *)
Definition widget_of (label : Label) : string :=
  label_name label +:+ "Label".

End Profile.

Arguments widgets {AppData} _.
Arguments app_data {AppData} _.
Arguments label_name {AppData} _.
Arguments label_update {AppData} _ _.
Arguments setText {AppData} _ _ _.
Arguments update_labels {AppData} _ _.
Arguments widget_of {AppData} _.

(* ===================================================================== *)
(** ** The command line of the main window ([main.py]) *)
(* ===================================================================== *)

(** The three pieces of [MainApp] that sending a command touches: the text
    of the console, the text of the command box and the values emitted on
    [sig_send], oldest first. *)
Record CommandLine : Type := mkCommandLine {
  consoleText : string;
  commandEdit : string;
  sig_send : list string
}.

Definition LF : string := String (Ascii.ascii_of_byte x0a) EmptyString.

Definition printToConsole (text : string) (ui : CommandLine) : CommandLine :=
  {| consoleText := consoleText ui +:+ text +:+ LF;
     commandEdit := commandEdit ui;
     sig_send := sig_send ui |}.

Definition sendCommand (command : string) (ui : CommandLine) : CommandLine :=
  let ui := printToConsole command ui in
  {| consoleText := consoleText ui;
     commandEdit := commandEdit ui;
     sig_send := sig_send ui ++ [command] |}.

Definition sendButtonPressed (ui : CommandLine) : CommandLine :=
  let word := commandEdit ui in
  let ui := sendCommand word ui in
  {| consoleText := consoleText ui;
     commandEdit := "";
     sig_send := sig_send ui |}.

(** Typing [word] into the command box and pressing the button, for each
    word of a list in turn. *)
Definition type_and_send (words : list string) (ui : CommandLine) : CommandLine :=
  fold_left
    (fun ui word =>
       sendButtonPressed {| consoleText := consoleText ui;
                            commandEdit := word;
                            sig_send := sig_send ui |})
    words ui.

(* ===================================================================== *)
(** ** Facts about bytes *)
(* ===================================================================== *)

Lemma b2z_range (b : byte) : 0 <= b2z b < 256.
Proof.
  unfold b2z. pose proof (Byte.to_N_bounded b). lia.
Qed.

Lemma z2b_b2z (b : byte) : z2b (b2z b) = b.
Proof.
  unfold z2b, b2z. rewrite N2Z.id. by rewrite Byte.of_to_N.
Qed.

Lemma b2z_z2b (z : Z) : 0 <= z < 256 -> b2z (z2b z) = z.
Proof.
  intros Hz. unfold z2b, b2z.
  destruct (Byte.of_N (Z.to_N z)) as [b|] eqn:E.
  - apply Byte.to_of_N in E. rewrite E. lia.
  - apply Byte.of_N_None_iff in E. lia.
Qed.

Lemma b2z_inj (a b : byte) : b2z a = b2z b -> a = b.
Proof.
  intros E. rewrite <- (z2b_b2z a), <- (z2b_b2z b). by rewrite E.
Qed.

Lemma b2z_eqb (b c : byte) : (b2z b =? b2z c) = true <-> b = c.
Proof.
  rewrite Z.eqb_eq. split; [apply b2z_inj | by intros ->].
Qed.

Lemma be_value_app (bs : list byte) (b : byte) :
  be_value (bs ++ [b]) = be_value bs * 256 + b2z b.
Proof.
  unfold be_value. by rewrite fold_left_app.
Qed.

Lemma be_value_be_digits_4 (z : Z) :
  0 <= z < 2 ^ 32 -> be_value (be_digits 4 z) = z.
Proof.
  intros Hz. unfold be_value. simpl.
  rewrite !b2z_z2b by (apply Z.mod_pos_bound; lia).
  change (256 ^ 3) with 16777216. change (256 ^ 2) with 65536.
  change (256 ^ 1) with 256. change (256 ^ 0) with 1.
  change (2 ^ 32) with 4294967296 in Hz.
  Z.to_euclidean_division_equations. lia.
Qed.

Lemma length_be_digits (n : nat) (z : Z) : length (be_digits n z) = n.
Proof.
  induction n as [|n IH]; simpl; [done | by rewrite IH].
Qed.

Lemma unpack_pack_f32 (big : bool) (z : Z) :
  0 <= z < 2 ^ 32 -> unpack_32 big (pack_f32 big z) = z.
Proof.
  intros Hz. unfold unpack_32, pack_f32. destruct big.
  - by apply be_value_be_digits_4.
  - rewrite rev_involutive. by apply be_value_be_digits_4.
Qed.

Lemma length_pack_f32 (big : bool) (z : Z) : length (pack_f32 big z) = 4%nat.
Proof.
  unfold pack_f32. destruct big; [|rewrite length_rev]; apply length_be_digits.
Qed.

(* ===================================================================== *)
(** ** The bridge *)
(* ===================================================================== *)

Section BridgeFacts.
Context {X H : Type} `{!RadioRelay X} `{!HardwareModel H}.
Implicit Type c : @SimConnection X H.

(** C1. A Config frame with an 8-byte payload sets both flags:
    ints-big-endian is true exactly when payload byte 0 is 0x04 and
    floats-big-endian is true exactly when payload byte 4 is 0xC0. *)
Theorem getEndianness_decodes_selectors c (payload rest : list byte) :
  length payload = 8%nat ->
  pending (stdout c) = [x01; x00; x08] ++ payload ++ rest ->
  exists c' i f,
    _getEndianness c = (c', Ok tt)
    /\ bigEndianInts c' = Some i
    /\ bigEndianFloats c' = Some f
    /\ (i = true <-> payload !! 0%nat = Some x04)
    /\ (f = true <-> payload !! 4%nat = Some xc0)
    /\ pending (stdout c') = rest.
Proof.
  intros Hlen Hp.
  do 9 (destruct payload as [|? payload]; try discriminate Hlen).
  destruct c as [id bi bf [p h hs] sin x hw sd tr]. simpl in Hp. subst p.
  eexists _, _, _. split.
  { cbv -[b2z Z.eqb String.app keep_last app]. reflexivity. }
  simpl. repeat split; try reflexivity.
  - intros E. f_equal. by apply (b2z_eqb _ x04).
  - intros [= ->]. reflexivity.
  - intros E. f_equal. by apply (b2z_eqb _ xc0).
  - intros [= ->]. reflexivity.
Qed.

(** C3. [send] with an identity other than the connection's own raises and
    leaves the connection, its relay included, as it was; with the
    connection's own identity it does what [broadcast] does, which is to
    hand the payload to the relay's [send_to_rocket]. *)
Theorem send_checks_identity c (hwid_ : string) (data : list byte) :
  (hwid_ <> hwid c ->
     send hwid_ data c
       = (c, Raise (Exception ("Connection does not support HWID=" +:+ hwid_))))
  /\ (hwid_ = hwid c ->
        send hwid_ data c = broadcast data c
        /\ broadcast data c
           = (set_xbee (send_to_rocket data (_xbee c)).1 c,
              (send_to_rocket data (_xbee c)).2)).
Proof.
  split.
  - intros Hne. unfold send, bind, get.
    apply String.eqb_neq in Hne. by rewrite Hne.
  - intros ->. split.
    + unfold send, bind, get. by rewrite String.eqb_refl.
    + unfold broadcast, on_xbee. by destruct (send_to_rocket data (_xbee c)).
Qed.

Lemma stdin_write_each_spec (packet : list byte) c :
  stdin_write_each packet c = (set_stdin (stdin c ++ packet) c, Ok tt).
Proof.
  revert c. induction packet as [|b packet IH]; intros c.
  - simpl. unfold ret. destruct c. simpl. by rewrite app_nil_r.
  - simpl. unfold bind at 1, modify. rewrite IH.
    destruct c. simpl. by rewrite <- app_assoc.
Qed.

Lemma send_sim_packet_spec (id_ : Z) (data : list byte) c :
  0 <= id_ < 256 ->
  Z.of_nat (length data) < 65536 ->
  _send_sim_packet id_ data c
  = ({| hwid := hwid c; bigEndianInts := bigEndianInts c;
        bigEndianFloats := bigEndianFloats c; stdout := stdout c;
        stdin := stdin c ++ z2b id_ :: be_digits 2 (Z.of_nat (length data)) ++ data;
        _xbee := _xbee c; _hw_sim := _hw_sim c;
        _is_shutting_down := _is_shutting_down c;
        trace := trace c ++ [StdinFlush] |},
     Ok tt).
Proof.
  intros Hid Hlen. unfold _send_sim_packet, bind, lift, to_bytes.
  replace ((0 <=? id_) && (id_ <? 256 ^ Z.of_nat 1)) with true
    by (symmetry; apply andb_true_iff; split; [apply Z.leb_le | apply Z.ltb_lt]; lia).
  replace ((0 <=? Z.of_nat (length data)) && (Z.of_nat (length data) <? 256 ^ Z.of_nat 2))
    with true
    by (symmetry; apply andb_true_iff; split; [apply Z.leb_le | apply Z.ltb_lt]; lia).
  rewrite stdin_write_each_spec. unfold emit, modify. simpl.
  rewrite Z.div_1_r, (Z.mod_small id_) by lia. reflexivity.
Qed.

Lemma packetHandlers_lookup (id : Z) :
  packetHandlers (X:=X) (H:=H) !! id =
    if decide (id = SimRxId.BUZZER) then Some _handleBuzzer
    else if decide (id = SimRxId.DIGITAL_PIN_WRITE) then Some _handleDigitalPinWrite
    else if decide (id = SimRxId.RADIO) then Some _handleRadio
    else if decide (id = SimRxId.ANALOG_READ) then Some _handleAnalogRead
    else if decide (id = SimRxId.SENSOR_READ) then Some _handleSensorRead
    else None.
Proof.
  unfold packetHandlers. simpl list_to_map.
  do 5 (case_decide; [subst id; apply lookup_insert_eq
                          | rewrite lookup_insert_ne by done]).
  apply lookup_empty.
Qed.

(** *** Reading a frame *)

Lemma bind_ok {S A B} (m : M S A) (k : A -> M S B) (s s' : S) (a : A) :
  m s = (s', Ok a) -> bind m k s = k a s'.
Proof. intros E. unfold bind. by rewrite E. Qed.

Lemma stdout_read_app (n : nat) (got rest : list byte) c :
  pending (stdout c) = got ++ rest ->
  length got = n ->
  stdout_read n c = (consumed got rest c, Ok got).
Proof.
  intros Hp Hn. unfold stdout_read, StreamFilter_read, consumed.
  by rewrite Hp, take_app_length', drop_app_length'.
Qed.

Lemma getLength_frame (msb lsb : byte) (rest : list byte) c :
  pending (stdout c) = msb :: lsb :: rest ->
  _getLength c
  = (consumed [msb; lsb] rest c, Ok (Z.lor (Z.shiftl (b2z msb) 8) (b2z lsb))).
Proof.
  intros Hp. unfold _getLength.
  by rewrite (bind_ok _ _ _ _ _ (stdout_read_app 2 [msb; lsb] rest c Hp eq_refl)).
Qed.

(** The opcode and the length of a frame whose payload is one byte. *)
Lemma one_byte_request (op b : byte) (rest : list byte) c :
  pending (stdout c) = [op; x00; x01; b] ++ rest ->
  exists c1,
    stdout_read 1 c = (consumed [op] ([x00; x01; b] ++ rest) c, Ok [op])
    /\ _getLength (consumed [op] ([x00; x01; b] ++ rest) c)
       = (consumed [x00; x01] (b :: rest) (consumed [op] ([x00; x01; b] ++ rest) c),
          Ok 1)
    /\ stdout_read 1
         (consumed [x00; x01] (b :: rest) (consumed [op] ([x00; x01; b] ++ rest) c))
       = (c1, Ok [b])
    /\ pending (stdout c1) = rest
    /\ stdin c1 = stdin c /\ trace c1 = trace c
    /\ _hw_sim c1 = _hw_sim c /\ _xbee c1 = _xbee c
    /\ hwid c1 = hwid c
    /\ bigEndianInts c1 = bigEndianInts c
    /\ bigEndianFloats c1 = bigEndianFloats c
    /\ _is_shutting_down c1 = _is_shutting_down c.
Proof.
  intros Hp. eexists. split; [by apply stdout_read_app|].
  split; [by apply getLength_frame|].
  split; [by apply (stdout_read_app 1 [b] rest)|].
  by repeat split.
Qed.

(** C8. An AnalogRead request is answered with the frame: opcode 0x61,
    length 00 02, and the 16-bit reading of the hardware model, most
    significant byte first. *)
Theorem analog_read_reply c (pin : byte) (rest : list byte) (h' : H) (value : Z) :
  pending (stdout c) = [x61; x00; x01; pin] ++ rest ->
  analog_read (b2z pin) (_hw_sim c) = (h', Ok value) ->
  0 <= value < 65536 ->
  exists c' hi lo,
    _run_body c = (c', Ok false)
    /\ stdin c' = stdin c ++ [x61; x00; x02; hi; lo]
    /\ b2z hi * 256 + b2z lo = value
    /\ pending (stdout c') = rest.
Proof.
  intros Hp Hread Hv.
  destruct (one_byte_request x61 pin rest c Hp)
    as (c1 & Hop & Hlen & Hpin & Hrest & Hin & _ & Hhw & _).
  unfold _run_body. rewrite (bind_ok _ _ _ _ _ Hop).
  unfold bind at 1, index0, ret at 1. rewrite packetHandlers_lookup.
  change (b2z x61) with SimRxId.ANALOG_READ. cbn [decide decide_rel].
  rewrite decide_False, decide_False, decide_False, decide_True by done.
  unfold _handleAnalogRead.
  unfold bind at 1. rewrite (bind_ok _ _ _ _ _ Hlen).
  unfold bind at 1, assert. cbn [Z.eqb Pos.eqb ret].
  cbn [Z.to_nat Pos.to_nat Pos.iter_op Nat.add].
  rewrite (bind_ok _ _ _ _ _ Hpin).
  unfold bind at 1, index0, ret at 1.
  unfold bind at 1, on_hw_sim. rewrite Hhw, Hread.
  unfold bind at 1, lift, to_bytes.
  replace ((0 <=? value) && (value <? 256 ^ Z.of_nat 2)) with true
    by (symmetry; apply andb_true_iff; split; [apply Z.leb_le | apply Z.ltb_lt]; lia).
  rewrite send_sim_packet_spec by (cbn; unfold SimTxId.ANALOG_READ; lia).
  eexists _, (z2b ((value / 256 ^ 1) mod 256)), (z2b ((value / 256 ^ 0) mod 256)).
  split; [reflexivity|]. cbn [fst stdin stdout set_hw_sim].
  split; [by rewrite Hin|]. split; [|exact Hrest].
  rewrite !b2z_z2b by (apply Z.mod_pos_bound; lia).
  change (256 ^ 1) with 256. change (256 ^ 0) with 1.
  Z.to_euclidean_division_equations. lia.
Qed.

Lemma length_struct_pack_floats (big : bool) (xs : list Z) :
  length (struct_pack_floats big xs) = (4 * length xs)%nat.
Proof.
  unfold struct_pack_floats. induction xs as [|x xs IH]; [done|].
  cbn [map concat]. rewrite length_app, length_pack_f32, IH. simpl. lia.
Qed.

(** A SensorRead request is answered with the frame: opcode 0x73, the
    length of the payload, and the reading vector packed as float32 values
    in the negotiated order. *)
Lemma sensor_read_reply c (sensor_id : byte) (rest : list byte)
    (kind : SensorType) (h' : H) (sensor_data : list Z) :
  pending (stdout c) = [x73; x00; x01; sensor_id] ++ rest ->
  ID_TO_SENSOR !! b2z sensor_id = Some kind ->
  sensor_read kind (_hw_sim c) = (h', Ok sensor_data) ->
  4 * Z.of_nat (length sensor_data) < 65536 ->
  exists c',
    _run_body c = (c', Ok false)
    /\ stdin c'
       = stdin c ++ x73 :: be_digits 2 (Z.of_nat (4 * length sensor_data))
                 ++ sensor_read_payload (bigEndianFloats c) sensor_data
    /\ pending (stdout c') = rest.
Proof.
  intros Hp Hkind Hread Hlen4.
  destruct (one_byte_request x73 sensor_id rest c Hp)
    as (c1 & Hop & Hlen & Hid & Hrest & Hin & _ & Hhw & _ & _ & _ & Hfl & _).
  unfold _run_body. rewrite (bind_ok _ _ _ _ _ Hop).
  unfold bind at 1, index0, ret at 1. rewrite packetHandlers_lookup.
  change (b2z x73) with SimRxId.SENSOR_READ. cbn [decide decide_rel].
  rewrite decide_False, decide_False, decide_False, decide_False, decide_True by done.
  unfold _handleSensorRead.
  unfold bind at 1. rewrite (bind_ok _ _ _ _ _ Hlen).
  unfold bind at 1, assert. cbn [Z.eqb Pos.eqb ret].
  cbn [Z.to_nat Pos.to_nat Pos.iter_op Nat.add].
  rewrite (bind_ok _ _ _ _ _ Hid).
  unfold bind at 1, index0, ret at 1.
  unfold bind at 1, lift. rewrite Hkind. cbn [from_option].
  unfold bind at 1, on_hw_sim. rewrite Hhw, Hread.
  unfold bind at 1, get. cbn [bigEndianFloats set_hw_sim]. rewrite Hfl.
  assert (length (sensor_read_payload (bigEndianFloats c) sensor_data)
          = (4 * length sensor_data)%nat) as Hsize
    by apply length_struct_pack_floats.
  rewrite send_sim_packet_spec;
    [| unfold SimTxId.SENSOR_READ; lia | rewrite Hsize; lia].
  eexists. split; [reflexivity|]. cbn [stdin stdout set_hw_sim].
  by rewrite Hin, Hsize.
Qed.



(** *** Handlers keep the connection steady *)

Lemma steady_refl c : steady c c.
Proof.
  split; try done. exists []. by rewrite app_nil_r.
Qed.

Lemma steady_trans c1 c2 c3 : steady c1 c2 -> steady c2 c3 -> steady c1 c3.
Proof.
  intros [Hh Hi Hf Hg Hp (a1 & Ht1 & Ha1)] [Hh' Hi' Hf' Hg' Hp' (a2 & Ht2 & Ha2)].
  split; try congruence; try lia.
  exists (a1 ++ a2). split.
  - by rewrite Ht2, Ht1, app_assoc.
  - rewrite forallb_app. by rewrite Ha1, Ha2.
Qed.

Lemma keeps_ret {A} (a : A) : keeps (X:=X) (H:=H) (ret a).
Proof. intros c. apply steady_refl. Qed.

Lemma keeps_raise {A} (e : exn) : keeps (X:=X) (H:=H) (@raise _ A e).
Proof. intros c. apply steady_refl. Qed.

Lemma keeps_lift {A} (r : result A) : keeps (X:=X) (H:=H) (lift r).
Proof. intros c. apply steady_refl. Qed.

Lemma keeps_get : keeps (@get (@SimConnection X H)).
Proof. intros c. apply steady_refl. Qed.

Lemma keeps_assert (cond : bool) : keeps (X:=X) (H:=H) (assert cond).
Proof. destruct cond; [apply keeps_ret | apply keeps_raise]. Qed.

Lemma keeps_index0 (bs : list byte) : keeps (X:=X) (H:=H) (index0 bs).
Proof. destruct bs; [apply keeps_raise | apply keeps_ret]. Qed.

Lemma keeps_bind {A B} (m : M (@SimConnection X H) A) (k : A -> M (@SimConnection X H) B) :
  keeps m -> (forall a, keeps (k a)) -> keeps (bind m k).
Proof.
  intros Hm Hk c. unfold bind. specialize (Hm c).
  destruct (m c) as [c1 [a|e]]; simpl in *; [|done].
  eapply steady_trans; [exact Hm | apply Hk].
Qed.

Lemma keeps_stdout_read (n : nat) : keeps (X:=X) (H:=H) (stdout_read n).
Proof.
  intros c. unfold stdout_read. simpl. split; try done.
  - simpl. rewrite length_drop. lia.
  - exists []. by rewrite app_nil_r.
Qed.

Lemma keeps_on_xbee {A} (m : M X A) : keeps (X:=X) (H:=H) (on_xbee m).
Proof.
  intros c. unfold on_xbee. destruct (m (_xbee c)) as [x r]. simpl.
  split; try done. exists []. by rewrite app_nil_r.
Qed.

Lemma keeps_on_hw_sim {A} (m : M H A) : keeps (X:=X) (H:=H) (on_hw_sim m).
Proof.
  intros c. unfold on_hw_sim. destruct (m (_hw_sim c)) as [h r]. simpl.
  split; try done. exists []. by rewrite app_nil_r.
Qed.

Lemma keeps_emit (e : Event) : is_error_record e = false -> keeps (X:=X) (H:=H) (emit e).
Proof.
  intros He c. unfold emit, modify. simpl. split; try done.
  exists [e]. split; [done|]. simpl. by rewrite He.
Qed.

Lemma keeps_stdin_write_each (packet : list byte) : keeps (X:=X) (H:=H) (stdin_write_each packet).
Proof.
  intros c. rewrite stdin_write_each_spec. simpl. split; try done.
  exists []. by rewrite app_nil_r.
Qed.

Create HintDb keeps.

#[local] Hint Resolve keeps_ret keeps_raise keeps_lift keeps_get keeps_assert
  keeps_index0 keeps_stdout_read keeps_on_xbee keeps_on_hw_sim
  keeps_stdin_write_each : keeps.

Ltac keeps_step :=
  lazymatch goal with
  | |- keeps (bind _ _) => apply keeps_bind; [|intros ?]
  | |- keeps (emit _) => apply keeps_emit; reflexivity
  | |- keeps (match ?x with _ => _ end) => destruct x
  | |- keeps (if ?x then _ else _) => destruct x
  | |- keeps _ => solve [auto with keeps]
  end.

Lemma keeps_send_sim_packet (id_ : Z) (data : list byte) :
  keeps (X:=X) (H:=H) (_send_sim_packet id_ data).
Proof. unfold _send_sim_packet. repeat keeps_step. Qed.

#[local] Hint Resolve keeps_send_sim_packet : keeps.

Lemma keeps_getLength : keeps (X:=X) (H:=H) _getLength.
Proof. unfold _getLength. repeat keeps_step. Qed.

#[local] Hint Resolve keeps_getLength : keeps.

Lemma keeps_handleBuzzer : keeps (X:=X) (H:=H) _handleBuzzer.
Proof. unfold _handleBuzzer. repeat keeps_step. Qed.

Lemma keeps_handleDigitalPinWrite : keeps (X:=X) (H:=H) _handleDigitalPinWrite.
Proof. unfold _handleDigitalPinWrite. repeat keeps_step. Qed.

Lemma keeps_handleRadio : keeps (X:=X) (H:=H) _handleRadio.
Proof. unfold _handleRadio. repeat keeps_step. Qed.

Lemma keeps_handleAnalogRead : keeps (X:=X) (H:=H) _handleAnalogRead.
Proof. unfold _handleAnalogRead. repeat keeps_step. Qed.

Lemma keeps_handleSensorRead : keeps (X:=X) (H:=H) _handleSensorRead.
Proof. unfold _handleSensorRead. repeat keeps_step. Qed.

Lemma keeps_packetHandlers (id : Z) (handler : M (@SimConnection X H) unit) :
  packetHandlers !! id = Some handler -> keeps handler.
Proof.
  rewrite packetHandlers_lookup.
  repeat case_decide; intros [= <-];
    auto using keeps_handleBuzzer, keeps_handleDigitalPinWrite,
      keeps_handleRadio, keeps_handleAnalogRead, keeps_handleSensorRead.
Qed.


(** *** The read loop *)

Lemma log_history_spec c :
  log_history c
  = ({| hwid := hwid c; bigEndianInts := bigEndianInts c;
        bigEndianFloats := bigEndianFloats c; stdout := stdout c;
        stdin := stdin c; _xbee := _xbee c; _hw_sim := _hw_sim c;
        _is_shutting_down := _is_shutting_down c;
        trace := trace c
                 ++ map (fun b => Log ERROR (HexString.of_Z (b2z b)))
                        (history (stdout c)) |},
     Ok tt).
Proof.
  unfold log_history, bind, get, StreamFilter_getHistory.
  generalize (history (stdout c)) as hist.
  destruct c as [id bi bf so si x hw sd tr]. simpl.
  intros hist. revert tr. induction hist as [|b hist IH]; intros tr; simpl.
  - unfold ret. by rewrite app_nil_r.
  - rewrite IH.
    by rewrite <- app_assoc.
Qed.

Lemma run_body_violation c (b : byte) (rest : list byte) :
  pending (stdout c) = b :: rest ->
  packetHandlers (X:=X) (H:=H) !! b2z b = None ->
  _run_body c = (violated c b rest, Ok true).
Proof.
  intros Hp Hnone. unfold _run_body, bind at 1, stdout_read, StreamFilter_read.
  rewrite Hp. simpl. unfold bind at 1. simpl. rewrite Hnone.
  unfold bind at 1, get. unfold bind at 1, emit, modify.
  unfold bind at 1. rewrite log_history_spec. simpl.
  unfold bind, ret, violated, violation_report. simpl.
  by rewrite <- !app_assoc.
Qed.

Lemma run_body_cases c :
  match _run_body c with
  | (c', Ok true) =>
      exists b rest,
        pending (stdout c) = b :: rest
        /\ packetHandlers (X:=X) (H:=H) !! b2z b = None
        /\ c' = violated c b rest
  | (c', Ok false) =>
      steady c c'
      /\ (length (pending (stdout c')) < length (pending (stdout c)))%nat
  | (c', Raise _) => steady c c'
  end.
Proof.
  destruct (pending (stdout c)) as [|b rest] eqn:Hp.
  - pose proof (keeps_stdout_read 1 c) as Hs.
    unfold _run_body, bind at 1. unfold stdout_read, StreamFilter_read in *.
    rewrite Hp in *. simpl in *. exact Hs.
  - destruct (packetHandlers (X:=X) (H:=H) !! b2z b) as [handler|] eqn:Hh.
    + pose proof (keeps_stdout_read 1 c) as Hs.
      pose proof (keeps_packetHandlers _ _ Hh) as Hk.
      unfold _run_body, bind at 1. unfold stdout_read, StreamFilter_read in *.
      rewrite Hp in *. simpl in *. unfold bind at 1. simpl. rewrite Hh.
      unfold bind.
      match goal with |- context [handler ?s] => set (c1 := s) in * end.
      specialize (Hk c1). destruct (handler c1) as [c2 [[]|e]]; simpl in *.
      * split; [by eapply steady_trans|].
        destruct Hk as [_ _ _ _ Hk _]. subst c1. simpl in Hk. rewrite drop_0 in Hk. simpl. lia.
      * by eapply steady_trans.
    + rewrite (run_body_violation c b rest Hp Hh). eauto.
Qed.

Lemma hex_is_not_violation_msg (id : string) (b : byte) :
  HexString.of_Z (b2z b) <> violation_msg id.
Proof.
  pose proof (b2z_range b) as Hb. destruct (b2z b); [done|done|lia].
Qed.

Lemma violation_reports_cons (id : string) (e : Event) (l : list Event) :
  violation_reports id (e :: l)
  = ((if opens_violation_report id e then 1 else 0) + violation_reports id l)%nat.
Proof.
  unfold violation_reports. cbn [List.filter].
  by destruct (opens_violation_report id e).
Qed.

Lemma violation_reports_app (id : string) (l1 l2 : list Event) :
  violation_reports id (l1 ++ l2)
  = (violation_reports id l1 + violation_reports id l2)%nat.
Proof.
  unfold violation_reports. by rewrite List.filter_app, length_app.
Qed.

Lemma violation_reports_quiet (id : string) (added : list Event) :
  forallb (fun e => negb (is_error_record e)) added = true ->
  violation_reports id added = 0%nat.
Proof.
  induction added as [|e added IH]; [done|].
  cbn [forallb]. intros [He Hrest]%andb_true_iff.
  rewrite violation_reports_cons, (IH Hrest).
  unfold opens_violation_report. rewrite bool_decide_eq_false_2; [done|].
  intros ->. discriminate He.
Qed.

Lemma violation_reports_report (id : string) (hist : list byte) :
  violation_reports id (violation_report id hist) = 1%nat.
Proof.
  unfold violation_report.
  rewrite violation_reports_cons, violation_reports_app.
  unfold opens_violation_report at 1. rewrite bool_decide_eq_true_2 by reflexivity.
  assert (violation_reports id [Log ERROR "^^^^ violation."] = 0%nat) as ->.
  { rewrite violation_reports_cons. unfold opens_violation_report.
    rewrite bool_decide_eq_false_2; [reflexivity|].
    intros E. injection E as E. discriminate E. }
  assert (violation_reports id
            (map (fun b => Log ERROR (HexString.of_Z (b2z b))) hist) = 0%nat) as ->.
  { induction hist as [|b hist IH]; [reflexivity|].
    cbn [map]. rewrite violation_reports_cons, IH.
    unfold opens_violation_report.
    rewrite bool_decide_eq_false_2; [reflexivity|].
    intros E. injection E as E. by apply hex_is_not_violation_msg in E. }
  reflexivity.
Qed.

(** What is known of a connection [c'] that a run took [c] to, leaving the
    loop as [exit] says. *)
Lemma run_loop_summary (fuel : nat) c :
  exists c' exit added,
    _run_loop fuel c = (c', exit)
    /\ hwid c' = hwid c
    /\ bigEndianInts c' = bigEndianInts c
    /\ bigEndianFloats c' = bigEndianFloats c
    /\ _is_shutting_down c' = _is_shutting_down c
    /\ trace c' = trace c ++ added
    /\ violation_reports (hwid c) added
       = (if exit is Ok Returned then 1 else 0)%nat
    /\ (forall ex, exit <> Ok (Excepted ex))
    /\ ((length (pending (stdout c)) < fuel)%nat -> exit <> Ok OutOfFuel).
Proof.
  revert c. induction fuel as [|fuel IH]; intros c.
  - exists c, (Ok OutOfFuel), []. simpl. rewrite app_nil_r.
    repeat split; try done. lia.
  - simpl. unfold bind at 1. pose proof (run_body_cases c) as Hb.
    destruct (_run_body c) as [c1 [[|]|e]].
    + destruct Hb as (b & rest & Hp & Hnone & ->).
      exists (violated c b rest), (Ok Returned), (violation_report (hwid c)
        (keep_last (history_size (stdout c)) (history (stdout c) ++ [b]))).
      repeat split; try done. apply violation_reports_report.
    + destruct Hb as [[Hh Hi Hf Hg Hp (a1 & Ht & Ha)] Hlt].
      destruct (IH c1) as (c' & exit & a2 & Hrun & Hh' & Hi' & Hf' & Hg' & Ht' & Hv & Hex & Hfuel).
      exists c', exit, (a1 ++ a2). rewrite Hrun.
      repeat split; try congruence.
      * by rewrite Ht', Ht, app_assoc.
      * rewrite violation_reports_app, violation_reports_quiet by done.
        by rewrite <- Hh.
      * intros Hlen. apply Hfuel. lia.
    + destruct Hb as [Hh Hi Hf Hg Hp (a1 & Ht & Ha)].
      exists c1, (Raise e), a1. repeat split; try done.
      by apply violation_reports_quiet.
Qed.

Lemma run_summary (fuel : nat) c :
  exists c' exit added,
    _run fuel c = (c', Ok exit)
    /\ hwid c' = hwid c
    /\ bigEndianInts c' = bigEndianInts c
    /\ bigEndianFloats c' = bigEndianFloats c
    /\ _is_shutting_down c' = _is_shutting_down c
    /\ trace c' = trace c ++ added
    /\ violation_reports (hwid c) added
       = (if exit is Returned then 1 else 0)%nat
    /\ ((length (pending (stdout c)) < fuel)%nat -> exit <> OutOfFuel).
Proof.
  destruct (run_loop_summary fuel c)
    as (c1 & exit & a1 & Hrun & Hh & Hi & Hf & Hg & Ht & Hv & Hex & Hfuel).
  unfold _run, bind at 1, try_except. rewrite Hrun.
  destruct exit as [[| ex |]|e].
  - exists c1, Returned, a1. simpl. by repeat split.
  - by destruct (Hex ex).
  - exists c1, OutOfFuel, a1. simpl. repeat split; try done.
    intros Hlen _. by apply Hfuel.
  - unfold bind at 1, get. unfold bind at 1.
    destruct (negb (_is_shutting_down c1)) eqn:Hsd.
    + unfold emit, modify, bind, ret, get. simpl.
      eexists _, (Excepted e),
        (a1 ++ [LogException ("Error in SIM connection. (HWID=" +:+ hwid c1 +:+ ")") e;
                Log WARNING ("SIM connection thread shut down (HWID=" +:+ hwid c1 +:+ ")")]).
      split; [reflexivity|]. cbn [hwid bigEndianInts bigEndianFloats _is_shutting_down trace].
      repeat split; try done.
      * rewrite Ht, <- !app_assoc. reflexivity.
      * rewrite violation_reports_app, Hv. reflexivity.
    + unfold emit, modify, bind, ret, get. simpl.
      eexists _, (Excepted e),
        (a1 ++ [Log WARNING ("SIM connection thread shut down (HWID=" +:+ hwid c1 +:+ ")")]).
      split; [reflexivity|]. cbn [hwid bigEndianInts bigEndianFloats _is_shutting_down trace].
      repeat split; try done.
      * rewrite Ht, <- !app_assoc. reflexivity.
      * rewrite violation_reports_app, Hv. reflexivity.
Qed.

Lemma run_loop_after_frames (n fuel : nat) c0 c :
  after_frames n c0 = Some c ->
  _run_loop (n + fuel) c0 = _run_loop fuel c.
Proof.
  revert c0. induction n as [|n IH]; intros c0; simpl.
  - by intros [= ->].
  - unfold bind at 1. destruct (_run_body c0) as [c1 [[|]|e]]; try done.
    apply IH.
Qed.

Lemma run_stops_at_violation (n fuel : nat) c0 c (b : byte) (rest : list byte) :
  after_frames n c0 = Some c ->
  pending (stdout c) = b :: rest ->
  packetHandlers (X:=X) (H:=H) !! b2z b = None ->
  _run (n + S fuel) c0 = (violated c b rest, Ok Returned).
Proof.
  intros Hn Hp Hnone. unfold _run, bind at 1, try_except.
  rewrite (run_loop_after_frames _ _ _ _ Hn). simpl.
  unfold bind at 1. by rewrite (run_body_violation c b rest Hp Hnone).
Qed.

(** C4. When the loop reads an opcode byte that has no handler, it logs
    the violation, the buffered history and the closing line, and returns:
    the bytes after the opcode stay unread and nothing else changes.  A run
    reports a violation once if it ends this way and never otherwise. *)
Theorem unhandled_opcode_ends_run :
  (forall (n fuel : nat) c0 c (b : byte) (rest : list byte),
     after_frames n c0 = Some c ->
     pending (stdout c) = b :: rest ->
     packetHandlers (X:=X) (H:=H) !! b2z b = None ->
     _run (n + S fuel) c0 = (violated c b rest, Ok Returned))
  /\ (forall (fuel : nat) c,
        exists c' exit added,
          _run fuel c = (c', Ok exit)
          /\ trace c' = trace c ++ added
          /\ violation_reports (hwid c) added
             = (if exit is Returned then 1 else 0)%nat).
Proof.
  split.
  - intros n fuel c0 c b rest. apply run_stops_at_violation.
  - intros fuel c.
    destruct (run_summary fuel c) as (c' & exit & added & Hrun & _ & _ & _ & _ & Ht & Hv & _).
    by exists c', exit, added.
Qed.

(** C10. The Config opcode has no handler in the running loop: a Config
    frame that arrives after the negotiation ends the run as any other
    violation does, and no run, whatever frames it reads, changes the two
    endianness flags. *)
Theorem config_frame_after_negotiation :
  packetHandlers (X:=X) (H:=H) !! SimRxId.CONFIG = None
  /\ (forall (n fuel : nat) c0 c (rest : list byte),
        after_frames n c0 = Some c ->
        pending (stdout c) = x01 :: rest ->
        _run (n + S fuel) c0 = (violated c x01 rest, Ok Returned))
  /\ (forall (fuel : nat) c c' exit,
        _run fuel c = (c', exit) ->
        bigEndianInts c' = bigEndianInts c
        /\ bigEndianFloats c' = bigEndianFloats c).
Proof.
  assert (packetHandlers (X:=X) (H:=H) !! SimRxId.CONFIG = None) as Hnone.
  { rewrite packetHandlers_lookup. by repeat case_decide. }
  split; [exact Hnone|]. split.
  - intros n fuel c0 c rest Hn Hp.
    by apply (run_stops_at_violation n fuel c0 c x01 rest).
  - intros fuel c c' exit Hrun.
    destruct (run_summary fuel c) as (c1 & e1 & added & Hrun1 & _ & Hi & Hf & _).
    rewrite Hrun in Hrun1. injection Hrun1 as -> _. by split.
Qed.

(** With more fuel than there are unread bytes, the loop does not stop for
    want of fuel: it leaves by the [return] or by an exception. *)
Lemma run_total c :
  exists c' exit,
    _run (S (length (pending (stdout c)))) c = (c', Ok exit)
    /\ exit <> OutOfFuel.
Proof.
  destruct (run_summary (S (length (pending (stdout c)))) c)
    as (c' & exit & added & Hrun & _ & _ & _ & _ & _ & _ & Hfuel).
  exists c', exit. split; [exact Hrun|]. apply Hfuel. lia.
Qed.

End BridgeFacts.


(* ===================================================================== *)
(** ** The decoder *)
(* ===================================================================== *)

Section DecoderFacts.
Variable ids : SubpacketIds.

Lemma single_sensor_group (d : Decoding) (h : Header) (x : Z) (rest : list byte) :
  0 <= x < 2 ^ 32 ->
  byte_stream d = pack_f32 (truthy (big_endian_floats (self d))) x ++ rest ->
  single_sensor h d =
    ({| self := self d; byte_stream := rest;
        emitted := emitted d ++ [Increment "single_sensor"] |},
     Ok {[ inl (subpacket_id h) := VFloat x ]}).
Proof.
  intros Hx Hs.
  pose proof (length_pack_f32 (truthy (big_endian_floats (self d))) x) as Hlen.
  unfold single_sensor, bind, read, fourtofloat, bind, assert, get, say, modify, ret.
  rewrite Hs, take_app_length', drop_app_length' by done.
  rewrite Hlen. simpl.
  rewrite unpack_pack_f32 by done. reflexivity.
Qed.


(** [extract], case by case. *)
Lemma extract_cases (d : Decoding) :
  extract ids d =
    if bool_decide (big_endian_ints (self d) = None)
       || bool_decide (big_endian_floats (self d) = None)
    then (d, Raise (Exception "Endianness not set before parsing"))
    else
      match header ids d with
      | (d1, Raise e) => (d1, Raise e)
      | (d1, Ok h) =>
          match parse_data ids h d1 with
          | (d2, Ok record) =>
              (cleared d2,
               Ok (<[inl (SubpacketEnum_TIME ids) := VInt (timestamp h)]> record))
          | (d2, Raise e) =>
              (cleared {| self := self d2; byte_stream := byte_stream d2;
                          emitted := emitted d2 ++ [LogException "Error parsing data" e] |},
               Ok (<[inl (SubpacketEnum_TIME ids) := VInt (timestamp h)]> ∅))
          end
      end.
Proof.
  unfold extract, bind at 1, get. unfold bind at 1.
  destruct (bool_decide (big_endian_ints (self d) = None)
            || bool_decide (big_endian_floats (self d) = None)); [reflexivity|].
  unfold ret at 1. unfold bind at 1.
  destruct (header ids d) as [d1 [h|e]]; [|reflexivity].
  unfold bind at 1, try_except.
  destruct (parse_data ids h d1) as [d2 [record|e]]; reflexivity.
Qed.

(** C5. Without endianness [extract] raises and touches neither the stream
    nor the decoder; and whenever it returns it has cleared both flags, so
    that a second call with no [set_endianness] in between raises, whatever
    stream it is given. *)
Theorem extract_needs_fresh_endianness (d : Decoding) :
  (big_endian_ints (self d) = None \/ big_endian_floats (self d) = None ->
     extract ids d = (d, Raise (Exception "Endianness not set before parsing")))
  /\ (forall d' record,
        extract ids d = (d', Ok record) ->
        big_endian_ints (self d') = None
        /\ big_endian_floats (self d') = None
        /\ forall (bs : list byte) (evs : list Event),
             let again := {| self := self d'; byte_stream := bs; emitted := evs |} in
             extract ids again
             = (again, Raise (Exception "Endianness not set before parsing"))).
Proof.
  assert (forall d0 : Decoding,
            big_endian_ints (self d0) = None \/ big_endian_floats (self d0) = None ->
            extract ids d0 = (d0, Raise (Exception "Endianness not set before parsing")))
    as Hunset.
  { intros d0 Hnone. rewrite extract_cases.
    destruct Hnone as [-> | ->]; [done|].
    by rewrite orb_true_r. }
  split; [apply Hunset|].
  intros d' record. rewrite extract_cases.
  destruct (bool_decide _ || bool_decide _); [discriminate|].
  destruct (header ids d) as [d1 [h|e]]; [|discriminate].
  destruct (parse_data ids h d1) as [d2 [r|e]]; intros [= <- _];
    (split; [reflexivity|]; split; [reflexivity|]);
    intros bs evs again; apply Hunset; by left.
Qed.

(** *** The decoder object is only read while a subpacket is decoded *)

Lemma keeps_self_ret {A} (a : A) : keeps_self (ret a).
Proof. done. Qed.

Lemma keeps_self_raise {A} (e : exn) : keeps_self (@raise _ A e).
Proof. done. Qed.

Lemma keeps_self_lift {A} (r : result A) : keeps_self (lift r).
Proof. done. Qed.

Lemma keeps_self_get : keeps_self get.
Proof. done. Qed.

Lemma keeps_self_assert (cond : bool) : keeps_self (assert cond).
Proof. by destruct cond. Qed.

Lemma keeps_self_index0 (bs : list byte) : keeps_self (index0 bs).
Proof. by destruct bs. Qed.

Lemma keeps_self_read (n : nat) : keeps_self (read n).
Proof. done. Qed.

Lemma keeps_self_say (e : Event) : keeps_self (say e).
Proof. done. Qed.

Lemma keeps_self_bind {A B} (m : M Decoding A) (k : A -> M Decoding B) :
  keeps_self m -> (forall a, keeps_self (k a)) -> keeps_self (bind m k).
Proof.
  intros Hm Hk d. unfold bind. specialize (Hm d).
  destruct (m d) as [d1 [a|e]]; simpl in *; [|done].
  by rewrite Hk.
Qed.

Create HintDb keeps_self.

#[local] Hint Resolve keeps_self_ret keeps_self_raise keeps_self_lift
  keeps_self_get keeps_self_assert keeps_self_index0 keeps_self_read
  keeps_self_say : keeps_self.

Ltac keeps_self_step :=
  lazymatch goal with
  | |- keeps_self (bind _ _) => apply keeps_self_bind; [|intros ?]
  | |- keeps_self (if ?x then _ else _) => destruct x
  | |- keeps_self _ => solve [auto with keeps_self]
  end.

Lemma keeps_self_fourtoint (bs : list byte) : keeps_self (fourtoint bs).
Proof. unfold fourtoint. repeat keeps_self_step. Qed.

Lemma keeps_self_fourtofloat (bs : list byte) : keeps_self (fourtofloat bs).
Proof. unfold fourtofloat. repeat keeps_self_step. Qed.

#[local] Hint Resolve keeps_self_fourtoint keeps_self_fourtofloat : keeps_self.

Lemma keeps_self_header : keeps_self (header ids).
Proof. unfold header. repeat keeps_self_step. Qed.

Lemma keeps_self_message (h : Header) : keeps_self (message ids h).
Proof. unfold message. repeat keeps_self_step. Qed.

Lemma keeps_self_event (h : Header) : keeps_self (event ids h).
Proof. unfold event. repeat keeps_self_step. Qed.

Lemma keeps_self_config (h : Header) : keeps_self (config h).
Proof. unfold config. repeat keeps_self_step. Qed.

Lemma keeps_self_single_sensor (h : Header) : keeps_self (single_sensor h).
Proof. unfold single_sensor. repeat keeps_self_step. Qed.

Lemma keeps_self_parse_data (h : Header) : keeps_self (parse_data ids h).
Proof.
  intros d. unfold parse_data, bind, get.
  destruct (packetTypeToParser (self d) !! subpacket_id h) as [[| | | |fn]|]; simpl.
  - apply keeps_self_message.
  - apply keeps_self_event.
  - apply keeps_self_config.
  - apply keeps_self_single_sensor.
  - by destruct (fn h (byte_stream d)).
  - done.
Qed.



Lemma header_recognized (d : Decoding) (b : byte) (ts rest : list byte) :
  byte_stream d = b :: ts ++ rest ->
  length ts = 4%nat ->
  isSubpacketID ids (b2z b) = true ->
  header ids d
  = ({| self := self d; byte_stream := rest; emitted := emitted d |},
     Ok {| subpacket_id := b2z b;
           timestamp := unpack_32 (truthy (big_endian_ints (self d))) ts |}).
Proof.
  intros Hs Hlen Hid.
  do 5 (destruct ts as [|? ts]; try discriminate Hlen).
  unfold header, bind at 1, read. rewrite Hs. simpl.
  unfold bind at 1. simpl. rewrite Hid. reflexivity.
Qed.

Lemma header_unrecognized (d : Decoding) (b : byte) (rest : list byte) :
  byte_stream d = b :: rest ->
  isSubpacketID ids (b2z b) = false ->
  header ids d
  = ({| self := self d; byte_stream := rest;
        emitted := emitted d ++ [Log ERROR (invalid_id_msg (b2z b))] |},
     Raise (ValueError (invalid_id_msg (b2z b)))).
Proof.
  intros Hs Hid.
  unfold header, bind at 1, read. rewrite Hs. simpl.
  unfold bind at 1. simpl. rewrite Hid. simpl.
  rewrite drop_0. reflexivity.
Qed.

Lemma message_hello (d : Decoding) (h : Header) (rest : list byte) :
  byte_stream d = [x05; x48; x45; x4c; x4c; x4f] ++ rest ->
  message ids h d
  = ({| self := self d; byte_stream := rest;
        emitted := emitted d ++ [Log INFO "Incoming message: HELLO"] |},
     Ok {[ inl (SubpacketEnum_MESSAGE ids) := VStr "HELLO" ]}).
Proof.
  intros Hs. unfold message, bind at 1, read. rewrite Hs. reflexivity.
Qed.

(** C6, as amended. Once the header has been read, a failure of the payload
    parser is caught by [extract]: it is logged, the record returned holds
    the time stamp only, and the endianness is cleared.  A failure while the
    header is read is raised to the caller, the endianness left as it was;
    an unrecognized subpacket id is such a failure.  In every case the
    registry is as before, so the decoder, given its endianness again,
    decodes later subpackets as it would have. *)
Theorem extract_isolates_payload_errors (d : Decoding) :
  big_endian_ints (self d) <> None ->
  big_endian_floats (self d) <> None ->
  (forall d1 h d2 e,
     header ids d = (d1, Ok h) ->
     parse_data ids h d1 = (d2, Raise e) ->
     extract ids d
     = ({| self := set_endianness None None (self d);
           byte_stream := byte_stream d2;
           emitted := emitted d2 ++ [LogException "Error parsing data" e] |},
        Ok {[ inl (SubpacketEnum_TIME ids) := VInt (timestamp h) ]}))
  /\ (forall d1 e,
        header ids d = (d1, Raise e) ->
        extract ids d = (d1, Raise e) /\ self d1 = self d)
  /\ (forall (b : byte) (rest : list byte),
        byte_stream d = b :: rest ->
        isSubpacketID ids (b2z b) = false ->
        extract ids d
        = ({| self := self d; byte_stream := rest;
              emitted := emitted d ++ [Log ERROR (invalid_id_msg (b2z b))] |},
           Raise (ValueError (invalid_id_msg (b2z b)))))
  /\ (forall d' record,
        extract ids d = (d', Ok record) ->
        forall i f, set_endianness i f (self d') = set_endianness i f (self d)).
Proof.
  intros Hi Hf.
  assert (forall d1 e, header ids d = (d1, Raise e) ->
            extract ids d = (d1, Raise e) /\ self d1 = self d) as Hraise.
  { intros d1 e Hh. rewrite extract_cases, Hh.
    rewrite !bool_decide_eq_false_2 by done. simpl.
    pose proof (keeps_self_header d) as E1. by rewrite Hh in E1. }
  split; [|split; [exact Hraise|split]].
  - intros d1 h d2 e Hh Hp. rewrite extract_cases, Hh, Hp.
    rewrite !bool_decide_eq_false_2 by done. simpl.
    pose proof (keeps_self_header d) as E1. rewrite Hh in E1.
    pose proof (keeps_self_parse_data h d1) as E2. rewrite Hp in E2.
    simpl in *. unfold cleared. simpl. by rewrite E2, E1.
  - intros b rest Hs Hid.
    by destruct (Hraise _ _ (header_unrecognized d b rest Hs Hid)).
  - intros d' record. rewrite extract_cases.
    destruct (bool_decide _ || bool_decide _); [discriminate|].
    pose proof (keeps_self_header d) as E1.
    destruct (header ids d) as [d1' [h'|e']]; [|discriminate].
    pose proof (keeps_self_parse_data h' d1') as E2.
    destruct (parse_data ids h' d1') as [d2' [r|e']]; intros [= <- _] i f;
      simpl in *; unfold set_endianness; simpl; by rewrite E2, E1.
Qed.

(** C7. Every record that [extract] returns holds the time stamp of the
    header under the time key; and a Message subpacket with length byte 5
    and text HELLO decodes to the record with exactly two entries, the
    message HELLO and that time stamp. *)
Theorem extract_stamps_time (d : Decoding) :
  (forall d' record,
     extract ids d = (d', Ok record) ->
     exists d1 h,
       header ids d = (d1, Ok h)
       /\ record !! inl (SubpacketEnum_TIME ids) = Some (VInt (timestamp h)))
  /\ (forall (b : byte) (ts rest : list byte),
        big_endian_ints (self d) <> None ->
        big_endian_floats (self d) <> None ->
        byte_stream d = b :: ts ++ [x05; x48; x45; x4c; x4c; x4f] ++ rest ->
        length ts = 4%nat ->
        b2z b = SubpacketEnum_MESSAGE ids ->
        isSubpacketID ids (SubpacketEnum_MESSAGE ids) = true ->
        packetTypeToParser (self d) !! SubpacketEnum_MESSAGE ids = Some Bound_message ->
        SubpacketEnum_MESSAGE ids <> SubpacketEnum_TIME ids ->
        let time := unpack_32 (truthy (big_endian_ints (self d))) ts in
        exists d' record,
          extract ids d = (d', Ok record)
          /\ byte_stream d' = rest
          /\ record = {[ inl (SubpacketEnum_MESSAGE ids) := VStr "HELLO";
                         inl (SubpacketEnum_TIME ids) := VInt time ]}
          /\ dom record = {[ inl (SubpacketEnum_MESSAGE ids);
                             inl (SubpacketEnum_TIME ids) ]}).
Proof.
  split.
  - intros d' record. rewrite extract_cases.
    destruct (bool_decide _ || bool_decide _); [discriminate|].
    destruct (header ids d) as [d1 [h|e]]; [|discriminate].
    intros Hret. exists d1, h. split; [reflexivity|].
    destruct (parse_data ids h d1) as [d2 [r|e]];
      injection Hret as _ <-; apply lookup_insert_eq.
  - intros b ts rest Hi Hf Hs Hlen Hb Hid Hreg Hne time.
    rewrite <- Hb in Hid.
    rewrite extract_cases, !bool_decide_eq_false_2 by done. simpl.
    rewrite (header_recognized d b ts _ Hs Hlen Hid).
    unfold parse_data, bind at 1, get. cbn [self subpacket_id].
    rewrite Hb, Hreg. cbn [call_parser].
    rewrite (message_hello _ _ rest) by done.
    eexists _, _. split; [reflexivity|]. split; [reflexivity|].
    assert (@inl Z string (SubpacketEnum_MESSAGE ids) <> inl (SubpacketEnum_TIME ids))
      as Hkeys by congruence.
    split.
    + fold time. rewrite <- !insert_empty. by apply insert_insert_ne.
    + rewrite dom_insert_L, dom_singleton_L. apply (comm_L (∪)).
Qed.

End DecoderFacts.

(* ===================================================================== *)
(** ** The scenarios of the specification, and two that it gets wrong *)
(* ===================================================================== *)

(** Construction: the firmware says SYN and sends its Config frame; the
    bridge answers ACK and holds both flags. *)
Example init_scenario :
  let out := [x53; x59; x4e; x01; x00; x08;
              x04; x00; x00; x00; xc0; x00; x00; x00] in
  let built := SimConnection_init "tantalus_stage_1" (fixed_hw 0 []) idle_relay out in
  built.2 = Ok tt
  /\ hwid built.1 = "tantalus_stage_1SIM_CONN_HWID"
  /\ stdin built.1 = [x41; x43; x4b]
  /\ bigEndianInts built.1 = Some true
  /\ bigEndianFloats built.1 = Some true
  /\ pending (stdout built.1) = [].
Proof. repeat split; vm_compute; reflexivity. Qed.

(** The Buzzer frame 07 00 01 05 logs song type 5 and has no other
    effect. *)
Example buzzer_scenario :
  let c := running (fixed_hw 0 []) [x07; x00; x01; x05] in
  let c' := (_run_body c).1 in
  (_run_body c).2 = Ok false
  /\ trace c'
     = [Log INFO "SIM: Bell rang with song type 5 (HWID=tantalus_stage_1SIM_CONN_HWID)"]
  /\ stdin c' = [] /\ _xbee c' = _xbee c /\ _hw_sim c' = _hw_sim c
  /\ pending (stdout c') = [].
Proof. repeat split; vm_compute; reflexivity. Qed.

(** The Config payload 04 00 00 00 C0 00 00 00 makes both orders
    big-endian. *)
Lemma getEndianness_scenario :
  let payload := [x04; x00; x00; x00; xc0; x00; x00; x00] in
  let c := awaiting_config (fixed_hw 0 []) ([x01; x00; x08] ++ payload) in
  exists c',
    _getEndianness c = (c', Ok tt)
    /\ bigEndianInts c' = Some true
    /\ bigEndianFloats c' = Some true.
Proof.
  intros payload c.
  destruct (getEndianness_decodes_selectors c payload [] eq_refl eq_refl)
    as (c' & i & f & Hrun & Hi & Hf & Hit & Hft & _).
  exists c'. split; [exact Hrun|]. split.
  - rewrite Hi. f_equal. apply Hit. reflexivity.
  - rewrite Hf. f_equal. apply Hft. reflexivity.
Defined.


(** [send] to another identity raises; to the connection's own identity it
    is [broadcast]. *)
Lemma send_scenario :
  let c := running (fixed_hw 0 []) [] in
  send "co_pilotSIM_CONN_HWID" [x41] c
    = (c, Raise (Exception
                   "Connection does not support HWID=co_pilotSIM_CONN_HWID"))
  /\ send "tantalus_stage_1SIM_CONN_HWID" [x41] c = broadcast [x41] c
  /\ to_rocket (_xbee (broadcast [x41] c).1) = [[x41]].
Proof.
  intros c.
  destruct (send_checks_identity c "co_pilotSIM_CONN_HWID" [x41]) as [Hother _].
  destruct (send_checks_identity c "tantalus_stage_1SIM_CONN_HWID" [x41]) as [_ Hown].
  split; [apply Hother; discriminate|].
  split; [apply Hown; reflexivity|reflexivity].
Defined.

(** An AnalogRead frame, then a Config frame: the first is answered, the
    second ends the run with the report of a violation. *)
Lemma unhandled_opcode_scenario :
  let c0 := running (fixed_hw 512 []) [x61; x00; x01; x03; x01; x00; x08] in
  let c := {| hwid := hwid c0;
              bigEndianInts := Some true;
              bigEndianFloats := Some true;
              stdout := {| pending := [x01; x00; x08];
                           history := [x61; x00; x01; x03];
                           history_size := LOG_HISTORY_SIZE |};
              stdin := [x61; x00; x02; x02; x00];
              _xbee := idle_relay;
              _hw_sim := fixed_hw 512 [];
              _is_shutting_down := false;
              trace := [StdinFlush] |} in
  after_frames 1 c0 = Some c
  /\ _run 2 c0 = (violated c x01 [x00; x08], Ok Returned)
  /\ pending (stdout (violated c x01 [x00; x08])) = [x00; x08]
  /\ trace (violated c x01 [x00; x08])
     = [ StdinFlush;
         Log ERROR "SIM protocol violation!!! Shutting down. (HWID=tantalus_stage_1SIM_CONN_HWID)";
         Log ERROR "0x61"; Log ERROR "0x0"; Log ERROR "0x1"; Log ERROR "0x3";
         Log ERROR "0x1";
         Log ERROR "^^^^ violation." ].
Proof.
  intros c0 c.
  assert (after_frames 1 c0 = Some c) as Hframes by (vm_compute; reflexivity).
  split; [exact Hframes|]. split; [|split; vm_compute; reflexivity].
  apply (proj1 unhandled_opcode_ends_run 1%nat 0%nat c0 c x01 [x00; x08] Hframes).
  - reflexivity.
  - vm_compute. reflexivity.
Defined.

(** A decoder without endianness refuses a Message subpacket; with it, it
    decodes one subpacket and refuses the next. *)
Lemma extract_twice_scenario :
  let p := PacketParser_init example_ids in
  let packet := [x01; x00; x00; x01; x02; x05; x48; x45; x4c; x4c; x4f] in
  let d0 := {| self := p; byte_stream := packet; emitted := [] |} in
  let d := {| self := set_endianness (Some true) (Some true) p;
              byte_stream := packet ++ packet; emitted := [] |} in
  let d' := (extract example_ids d).1 in
  extract example_ids d0
    = (d0, Raise (Exception "Endianness not set before parsing"))
  /\ byte_stream d' = packet
  /\ extract example_ids d'
     = (d', Raise (Exception "Endianness not set before parsing")).
Proof.
  intros p packet d0 d d'.
  split; [apply (proj1 (extract_needs_fresh_endianness example_ids d0)); by left|].
  split; [vm_compute; reflexivity|].
  assert (exists record, extract example_ids d = (d', Ok record)) as [record Hret]
    by (eexists; vm_compute; reflexivity).
  destruct (proj2 (extract_needs_fresh_endianness example_ids d) d' record Hret)
    as (_ & _ & Hagain).
  exact (Hagain (byte_stream d') (emitted d')).
Defined.

(** C6, as stated, fails: a subpacket id that [isSubpacketID] rejects makes
    [extract] raise instead of returning a record. *)
Lemma extract_raises_on_unrecognized_id :
  let d := {| self := set_endianness (Some true) (Some true)
                        (PacketParser_init example_ids);
              byte_stream := [x09; x00; x00; x01; x02; x05];
              emitted := [] |} in
  isSubpacketID example_ids 9 = false
  /\ (extract example_ids d).2 = Raise (ValueError "Subpacket id 9 not valid.")
  /\ ~ exists d' record, extract example_ids d = (d', Ok record).
Proof.
  intros d. split; [reflexivity|].
  assert ((extract example_ids d).2 = Raise (ValueError "Subpacket id 9 not valid."))
    as Hraise by (vm_compute; reflexivity).
  split; [exact Hraise|].
  intros (d' & record & Hret). rewrite Hret in Hraise. discriminate Hraise.
Qed.

(** The same subpacket under the amended statement, and a Message whose
    text is not ASCII: the first is raised to the caller, the second is
    caught and yields the time stamp alone. *)
Lemma extract_isolation_scenario :
  let p := set_endianness (Some true) (Some true) (PacketParser_init example_ids) in
  let d := {| self := p; byte_stream := [x09; x00; x00; x01; x02; x05];
              emitted := [] |} in
  let m := {| self := p; byte_stream := [x01; x00; x00; x01; x02; x01; xff; x02];
              emitted := [] |} in
  extract example_ids d
    = ({| self := p; byte_stream := [x00; x00; x01; x02; x05];
          emitted := [Log ERROR "Subpacket id 9 not valid."] |},
       Raise (ValueError "Subpacket id 9 not valid."))
  /\ extract example_ids m
     = ({| self := PacketParser_init example_ids; byte_stream := [x02];
           emitted := [LogException "Error parsing data" UnicodeDecodeError] |},
        Ok {[ inl 0x1D := VInt 258 ]}).
Proof.
  intros p d m.
  assert (big_endian_ints p <> None /\ big_endian_floats p <> None)
    as [Hi Hf] by (split; discriminate).
  split.
  - apply (proj1 (proj2 (proj2 (extract_isolates_payload_errors example_ids d Hi Hf)))
             x09 [x00; x00; x01; x02; x05]); reflexivity.
  - apply (proj1 (extract_isolates_payload_errors example_ids m Hi Hf)
             {| self := p; byte_stream := [x01; xff; x02]; emitted := [] |}
             {| subpacket_id := 1; timestamp := 258 |}
             {| self := p; byte_stream := [x02]; emitted := [] |}
             UnicodeDecodeError); vm_compute; reflexivity.
Defined.

(** The Message subpacket of the specification: length byte 5, text
    HELLO. *)
Lemma extract_hello_scenario :
  let d := {| self := set_endianness (Some true) (Some true)
                        (PacketParser_init example_ids);
              byte_stream := [x01; x00; x00; x01; x02;
                              x05; x48; x45; x4c; x4c; x4f];
              emitted := [] |} in
  exists d' record,
    extract example_ids d = (d', Ok record)
    /\ byte_stream d' = []
    /\ record = {[ inl 0x01 := VStr "HELLO"; inl 0x1D := VInt 258 ]}
    /\ dom record = {[ inl 0x01; inl 0x1D ]}.
Proof.
  intros d.
  apply (proj2 (extract_stamps_time example_ids d) x01 [x00; x00; x01; x02] []);
    try discriminate; reflexivity.
Defined.

(** An AnalogRead request for pin 3 with the hardware model at 512 is
    answered with the bytes 61 00 02 02 00. *)
Lemma analog_read_scenario :
  let c := running (fixed_hw 512 []) [x61; x00; x01; x03] in
  exists c',
    _run_body c = (c', Ok false)
    /\ stdin c' = [x61; x00; x02; x02; x00].
Proof.
  intros c.
  assert (analog_read (b2z x03) (_hw_sim c) = (fixed_hw 512 [], Ok 512))
    as Hread by reflexivity.
  destruct (analog_read_reply c x03 [] (fixed_hw 512 []) 512 eq_refl Hread)
    as (c' & hi & lo & Hrun & _); [lia|].
  exists c'. split; [exact Hrun|].
  assert (c' = (_run_body c).1) as -> by (rewrite Hrun; reflexivity).
  vm_compute. reflexivity.
Defined.



(** A Config frame met by the running loop. *)
Lemma config_frame_scenario :
  let rest := [x00; x08; x00; x00; x00; x00; x00; x00; x00; x00] in
  let c := running (fixed_hw 0 []) (x01 :: rest) in
  let c' := (_run 1 c).1 in
  _run 1 c = (violated c x01 rest, Ok Returned)
  /\ bigEndianInts c' = Some true
  /\ bigEndianFloats c' = Some true.
Proof.
  intros rest c c'.
  destruct (@config_frame_after_negotiation RecordingRelay FixedHw _ _)
    as (_ & Hstop & Hflags).
  split; [apply (Hstop 0%nat 0%nat c c rest); reflexivity|].
  apply (Hflags 1%nat c c' (_run 1 c).2). apply surjective_pairing.
Defined.

(* ===================================================================== *)
(** ** More about the bridge *)
(* ===================================================================== *)

Lemma lor_shiftl_8 (a b : Z) :
  0 <= a -> 0 <= b < 256 -> Z.lor (Z.shiftl a 8) b = a * 256 + b.
Proof.
  intros Ha Hb. rewrite Z.shiftl_mul_pow2 by lia. change (2 ^ 8) with 256.
  symmetry. apply Z.add_nocarry_lor.
  apply Z.bits_inj'. intros n Hn. rewrite Z.land_spec, Z.bits_0.
  destruct (Z.lt_ge_cases n 8) as [Hlt|Hge].
  - replace (a * 256) with (a * 2 ^ 8) by reflexivity.
    by rewrite Z.mul_pow2_bits_low.
  - rewrite (Z.bits_above_log2 b n), andb_false_r; [done|lia|].
    destruct (Z.eq_dec b 0) as [->|Hnz]; [simpl; lia|].
    assert (Z.log2 b < 8); [|lia].
    apply Z.log2_lt_pow2; lia.
Qed.

Section BridgeMore.
Context {X H : Type} `{!RadioRelay X} `{!HardwareModel H}.
Implicit Type c : @SimConnection X H.

(** X1. [_getLength] reads two bytes as a big-endian number below 65536;
    when the stream closes before two bytes came, the unpacking fails. *)
Theorem getLength_big_endian c :
  (forall (msb lsb : byte) (rest : list byte),
     pending (stdout c) = msb :: lsb :: rest ->
     exists c',
       _getLength c = (c', Ok (b2z msb * 256 + b2z lsb))
       /\ pending (stdout c') = rest
       /\ 0 <= b2z msb * 256 + b2z lsb < 65536)
  /\ ((length (pending (stdout c)) < 2)%nat ->
      exists c',
        _getLength c = (c', Raise (unpack_error 2 (pending (stdout c))))
        /\ pending (stdout c') = []).
Proof.
  split.
  - intros msb lsb rest Hp. rewrite (getLength_frame msb lsb rest c Hp).
    pose proof (b2z_range msb). pose proof (b2z_range lsb).
    rewrite lor_shiftl_8 by lia.
    eexists. split; [reflexivity|]. split; [reflexivity|lia].
  - intros Hshort. unfold _getLength, bind, stdout_read, StreamFilter_read.
    destruct (pending (stdout c)) as [|b0 [|b1 p]]; simpl in *; [| |lia];
      (eexists; split; reflexivity).
Qed.

(** X3. [_send_sim_packet] writes the frame and flushes when the opcode
    fits one byte and the length fits two; otherwise it raises
    [OverflowError] before anything is written. *)
Theorem send_sim_packet_overflow (id_ : Z) (data : list byte) c :
  (0 <= id_ < 256 /\ Z.of_nat (length data) < 65536 ->
     exists c',
       _send_sim_packet id_ data c = (c', Ok tt)
       /\ stdin c' = stdin c ++ z2b id_ :: be_digits 2 (Z.of_nat (length data)) ++ data
       /\ trace c' = trace c ++ [StdinFlush])
  /\ (~ (0 <= id_ < 256 /\ Z.of_nat (length data) < 65536) ->
      _send_sim_packet id_ data c = (c, Raise OverflowError)).
Proof.
  split.
  - intros [Hid Hlen]. rewrite send_sim_packet_spec by done.
    eexists. by repeat split.
  - intros Hbad. unfold _send_sim_packet, bind, lift, to_bytes.
    destruct ((0 <=? id_) && (id_ <? 256 ^ Z.of_nat 1)) eqn:Eid; [|done].
    destruct ((0 <=? Z.of_nat (length data))
              && (Z.of_nat (length data) <? 256 ^ Z.of_nat 2)) eqn:Elen; [|done].
    exfalso. apply Hbad.
    apply andb_true_iff in Eid as [?%Z.leb_le ?%Z.ltb_lt].
    apply andb_true_iff in Elen as [?%Z.leb_le ?%Z.ltb_lt].
    change (256 ^ Z.of_nat 1) with 256 in *.
    change (256 ^ Z.of_nat 2) with 65536 in *. lia.
Qed.

Lemma be_value_be_digits_2 (z : Z) :
  0 <= z < 65536 ->
  exists msb lsb, be_digits 2 z = [msb; lsb] /\ b2z msb * 256 + b2z lsb = z.
Proof.
  intros Hz. eexists _, _. split; [reflexivity|].
  rewrite !b2z_z2b by (apply Z.mod_pos_bound; lia).
  change (256 ^ Z.of_nat 1) with 256. change (256 ^ Z.of_nat 0) with 1.
  Z.to_euclidean_division_equations. lia.
Qed.

(** X2. A frame that [_send_sim_packet] writes is read back by the
    bridge's own inbound steps: one opcode byte, [_getLength], then that
    many bytes give the opcode, the length of the payload and the
    payload. *)
Theorem frame_read_back (id_ : Z) (data : list byte) c :
  0 <= id_ < 256 ->
  Z.of_nat (length data) < 65536 ->
  exists frame,
    stdin (_send_sim_packet id_ data c).1 = stdin c ++ frame
    /\ length frame = (3 + length data)%nat
    /\ forall (r : @SimConnection X H) (rest : list byte),
         pending (stdout r) = frame ++ rest ->
         exists r1 r2 r3,
           stdout_read 1 r = (r1, Ok [z2b id_])
           /\ _getLength r1 = (r2, Ok (Z.of_nat (length data)))
           /\ stdout_read (length data) r2 = (r3, Ok data)
           /\ pending (stdout r3) = rest.
Proof.
  intros Hid Hlen.
  destruct (be_value_be_digits_2 (Z.of_nat (length data))) as (msb & lsb & Hd & Hv);
    [lia|].
  exists (z2b id_ :: [msb; lsb] ++ data).
  rewrite send_sim_packet_spec by done. rewrite Hd.
  split; [reflexivity|]. split; [simpl; by rewrite ?length_app|].
  intros r rest Hp.
  pose proof (stdout_read_app 1 [z2b id_] ([msb; lsb] ++ data ++ rest) r) as H1.
  rewrite H1; [| rewrite Hp; simpl; by rewrite <- ?app_assoc | done].
  eexists _, _, _. split; [reflexivity|].
  rewrite (getLength_frame msb lsb (data ++ rest)) by reflexivity.
  pose proof (b2z_range msb). pose proof (b2z_range lsb).
  rewrite lor_shiftl_8, Hv by lia.
  split; [reflexivity|].
  rewrite (stdout_read_app (length data) data rest) by reflexivity.
  by split.
Qed.

(** The first two steps of [_run_body] on a frame: the opcode byte, then
    the dispatch to [handler]. *)
Lemma run_body_dispatch (op : byte) (tail : list byte)
    (handler : M (@SimConnection X H) unit) c :
  pending (stdout c) = op :: tail ->
  packetHandlers !! b2z op = Some handler ->
  _run_body c
  = match handler (consumed [op] tail c) with
    | (c', Ok _) => (c', Ok false)
    | (c', Raise e) => (c', Raise e)
    end.
Proof.
  intros Hp Hh. unfold _run_body.
  rewrite (bind_ok _ _ _ _ _ (stdout_read_app 1 [op] tail c Hp eq_refl)).
  unfold bind at 1, index0, ret at 1. rewrite Hh.
  unfold bind, ret. by destruct (handler _) as [c' [[]|e]].
Qed.

Lemma stdout_read_any (n : nat) c :
  stdout_read n c
  = (consumed (take n (pending (stdout c))) (drop n (pending (stdout c))) c,
     Ok (take n (pending (stdout c)))).
Proof. reflexivity. Qed.

(** X4. A Radio frame hands the relay the payload that follows its length,
    or as much of it as came before the stream closed; nothing is written
    to the firmware, and a declared length of zero adds one warning to the
    trace.  What the relay raises leaves the loop as an exception. *)
Theorem radio_frame_forwarded c (msb lsb : byte) (tail : list byte)
    (x' : X) (rx : result unit) :
  pending (stdout c) = [x52; msb; lsb] ++ tail ->
  recieved_from_rocket
    (take (Z.to_nat (b2z msb * 256 + b2z lsb)) tail) (_xbee c) = (x', rx) ->
  exists c',
    _run_body c = (c', match rx with Ok _ => Ok false | Raise e => Raise e end)
    /\ _xbee c' = x'
    /\ pending (stdout c') = drop (Z.to_nat (b2z msb * 256 + b2z lsb)) tail
    /\ stdin c' = stdin c
    /\ _hw_sim c' = _hw_sim c
    /\ trace c'
       = trace c ++ (if b2z msb * 256 + b2z lsb =? 0
                     then [empty_radio_warning (hwid c)] else []).
Proof.
  intros Hp Hrx.
  pose proof (b2z_range msb) as Hm. pose proof (b2z_range lsb) as Hl.
  rewrite (run_body_dispatch x52 ([msb; lsb] ++ tail) _handleRadio c Hp)
    by (rewrite packetHandlers_lookup; reflexivity).
  unfold _handleRadio.
  rewrite (bind_ok _ _ _ _ _ (getLength_frame msb lsb tail (consumed [x52] ([msb; lsb] ++ tail) c) eq_refl)).
  rewrite lor_shiftl_8 by lia.
  unfold bind at 1, get.
  destruct (b2z msb * 256 + b2z lsb =? 0) eqn:Ez.
  - unfold bind at 1, emit, modify.
    rewrite (bind_ok _ _ _ _ _ (stdout_read_any _ _)).
    unfold on_xbee. cbn [pending stdout consumed set_stdout _xbee].
    rewrite Hrx. eexists. split; [by destruct rx as [[]|e]|].
    by repeat split.
  - unfold bind at 1, ret at 1.
    rewrite (bind_ok _ _ _ _ _ (stdout_read_any _ _)).
    unfold on_xbee. cbn [pending stdout consumed set_stdout _xbee].
    rewrite Hrx. eexists. split; [by destruct rx as [[]|e]|].
    cbn. rewrite app_nil_r. by repeat split.
Qed.

(** X5. A DigitalPinWrite frame passes pin and value to the hardware model
    and logs them; nothing is written to the firmware. *)
Theorem digital_pin_write_forwarded c (pin value : byte) (rest : list byte) (h' : H) :
  pending (stdout c) = [x50; x00; x02; pin; value] ++ rest ->
  digital_write (b2z pin) (b2z value) (_hw_sim c) = (h', Ok tt) ->
  exists c',
    _run_body c = (c', Ok false)
    /\ _hw_sim c' = h'
    /\ pending (stdout c') = rest
    /\ stdin c' = stdin c
    /\ _xbee c' = _xbee c
    /\ trace c'
       = trace c ++ [Log INFO ("SIM: Pin " +:+ pretty (b2z pin) +:+ " set to "
                               +:+ pretty (b2z value)
                               +:+ " (HWID=" +:+ hwid c +:+ ")")].
Proof.
  intros Hp Hw.
  rewrite (run_body_dispatch x50 ([x00; x02; pin; value] ++ rest)
             _handleDigitalPinWrite c Hp)
    by (rewrite packetHandlers_lookup; reflexivity).
  unfold _handleDigitalPinWrite.
  erewrite bind_ok by (apply (getLength_frame x00 x02); reflexivity).
  unfold bind at 1, assert.
  change (Z.lor (Z.shiftl (b2z x00) 8) (b2z x02) =? 2) with true. cbn [ret].
  erewrite bind_ok by (apply (stdout_read_app 2 [pin; value] rest); reflexivity).
  unfold bind at 1, on_hw_sim.
  cbn [_hw_sim consumed set_stdout]. rewrite Hw.
  unfold bind, get, emit, modify. eexists. split; [reflexivity|].
  by repeat split.
Qed.

Ltac reject_by_length handler Hp Hne :=
  rewrite (run_body_dispatch _ _ handler _ Hp)
    by (rewrite packetHandlers_lookup; reflexivity);
  try unfold _handleBuzzer; try unfold _handleDigitalPinWrite;
  try unfold _handleAnalogRead; try unfold _handleSensorRead;
  erewrite bind_ok by (apply getLength_frame; reflexivity);
  rewrite lor_shiftl_8 by lia;
  unfold bind, assert; rewrite Hne;
  eexists; split; [reflexivity|]; by repeat split.

(** X6. A Buzzer, DigitalPinWrite, AnalogRead or SensorRead frame whose
    declared length is not the one its handler asserts raises
    [AssertionError] once the length is read: the payload stays unread and
    neither collaborator, the firmware's input nor the trace is touched. *)
Theorem wrong_length_rejected c (op msb lsb : byte) (expected : Z)
    (rest : list byte) :
  (op, expected) ∈ asserted_lengths ->
  pending (stdout c) = op :: msb :: lsb :: rest ->
  b2z msb * 256 + b2z lsb <> expected ->
  exists c',
    _run_body c = (c', Raise AssertionError)
    /\ pending (stdout c') = rest
    /\ stdin c' = stdin c
    /\ _hw_sim c' = _hw_sim c
    /\ _xbee c' = _xbee c
    /\ trace c' = trace c.
Proof.
  intros Hin Hp Hne.
  pose proof (b2z_range msb) as Hm. pose proof (b2z_range lsb) as Hl.
  apply Z.eqb_neq in Hne.
  unfold asserted_lengths in Hin.
  repeat (apply elem_of_cons in Hin as [[= -> ->]|Hin]);
    [ reject_by_length (@_handleBuzzer X H) Hp Hne
    | reject_by_length (@_handleDigitalPinWrite X H _) Hp Hne
    | reject_by_length (@_handleAnalogRead X H _) Hp Hne
    | reject_by_length (@_handleSensorRead X H _) Hp Hne
    | by apply elem_of_nil in Hin ].
Qed.

(** X12. When the hardware model answers an AnalogRead with a value that
    does not fit 16 bits, [to_bytes] raises [OverflowError] and no reply is
    written. *)
Theorem analog_read_out_of_range c (pin : byte) (rest : list byte)
    (h' : H) (value : Z) :
  pending (stdout c) = [x61; x00; x01; pin] ++ rest ->
  analog_read (b2z pin) (_hw_sim c) = (h', Ok value) ->
  ~ 0 <= value < 65536 ->
  exists c',
    _run_body c = (c', Raise OverflowError)
    /\ _hw_sim c' = h'
    /\ stdin c' = stdin c
    /\ trace c' = trace c
    /\ pending (stdout c') = rest.
Proof.
  intros Hp Hread Hv.
  rewrite (run_body_dispatch x61 ([x00; x01; pin] ++ rest) _handleAnalogRead c Hp)
    by (rewrite packetHandlers_lookup; reflexivity).
  unfold _handleAnalogRead.
  erewrite bind_ok by (apply (getLength_frame x00 x01); reflexivity).
  unfold bind at 1, assert.
  change (Z.lor (Z.shiftl (b2z x00) 8) (b2z x01) =? 1) with true. cbn [ret].
  erewrite bind_ok by (apply (stdout_read_app 1 [pin] rest); reflexivity).
  unfold bind at 1, index0, ret at 1.
  unfold bind at 1, on_hw_sim. cbn [_hw_sim consumed set_stdout]. rewrite Hread.
  unfold bind, lift, to_bytes.
  replace ((0 <=? value) && (value <? 256 ^ Z.of_nat 2)) with false.
  - eexists. split; [reflexivity|]. by repeat split.
  - symmetry. apply andb_false_iff.
    change (256 ^ Z.of_nat 2) with 65536.
    destruct (Z.lt_ge_cases value 0); [left; by apply Z.leb_gt|].
    right. apply Z.ltb_ge. lia.
Qed.

Lemma ID_TO_SENSOR_above (id : Z) : 6 <= id -> ID_TO_SENSOR !! id = None.
Proof.
  intros Hid. unfold ID_TO_SENSOR. simpl list_to_map.
  do 6 (rewrite lookup_insert_ne by lia). apply lookup_empty.
Qed.

(** X13. A SensorRead request for an id that [ID_TO_SENSOR] does not hold
    (6 and above) raises [KeyError]: the hardware model is not asked and no
    reply is written. *)
Theorem sensor_read_unknown_kind c (sensor_id : byte) (rest : list byte) :
  pending (stdout c) = [x73; x00; x01; sensor_id] ++ rest ->
  6 <= b2z sensor_id ->
  exists c',
    _run_body c = (c', Raise (KeyError (b2z sensor_id)))
    /\ _hw_sim c' = _hw_sim c
    /\ stdin c' = stdin c
    /\ trace c' = trace c
    /\ pending (stdout c') = rest.
Proof.
  intros Hp Hid.
  rewrite (run_body_dispatch x73 ([x00; x01; sensor_id] ++ rest) _handleSensorRead c Hp)
    by (rewrite packetHandlers_lookup; reflexivity).
  unfold _handleSensorRead.
  erewrite bind_ok by (apply (getLength_frame x00 x01); reflexivity).
  unfold bind at 1, assert.
  change (Z.lor (Z.shiftl (b2z x00) 8) (b2z x01) =? 1) with true. cbn [ret].
  erewrite bind_ok by (apply (stdout_read_app 1 [sensor_id] rest); reflexivity).
  unfold bind at 1, index0, ret at 1.
  unfold bind, lift. rewrite ID_TO_SENSOR_above by done. cbn [from_option].
  eexists. split; [reflexivity|]. by repeat split.
Qed.

(** How [_run] leaves when its loop raises. *)
Lemma run_excepted (fuel : nat) c c1 (ex : exn) :
  _run_loop fuel c = (c1, Raise ex) ->
  _run fuel c
  = ({| hwid := hwid c1; bigEndianInts := bigEndianInts c1;
        bigEndianFloats := bigEndianFloats c1; stdout := stdout c1;
        stdin := stdin c1; _xbee := _xbee c1; _hw_sim := _hw_sim c1;
        _is_shutting_down := _is_shutting_down c1;
        trace := trace c1 ++ exception_records c1 ex |},
     Ok (Excepted ex)).
Proof.
  intros Hloop. unfold _run, bind at 1, try_except. rewrite Hloop.
  unfold exception_records, bind, get, emit, modify, ret.
  destruct (_is_shutting_down c1) eqn:Esd; simpl; by rewrite ?Esd, <- ?app_assoc.
Qed.

(** X7. A run that ends by an exception logs it unless the shutdown guard
    is set, and logs the closing warning in either case; the guard it reads
    is the one the run started with. *)
Theorem run_exception_logging (fuel : nat) c c' (ex : exn) :
  _run fuel c = (c', Ok (Excepted ex)) ->
  exists c1,
    _run_loop fuel c = (c1, Raise ex)
    /\ _is_shutting_down c1 = _is_shutting_down c
    /\ trace c'
       = trace c1
         ++ (if _is_shutting_down c
             then []
             else [LogException
                     ("Error in SIM connection. (HWID=" +:+ hwid c +:+ ")") ex])
         ++ [Log WARNING ("SIM connection thread shut down (HWID="
                          +:+ hwid c +:+ ")")]
    /\ stdin c' = stdin c1
    /\ stdout c' = stdout c1.
Proof.
  intros Hrun.
  destruct (run_loop_summary fuel c)
    as (c1 & exit & added & Hloop & Hh & _ & _ & Hg & _ & _ & Hex & _).
  destruct exit as [[| ex' |]|e].
  - unfold _run, bind at 1, try_except in Hrun. rewrite Hloop in Hrun.
    discriminate Hrun.
  - by destruct (Hex ex').
  - unfold _run, bind at 1, try_except in Hrun. rewrite Hloop in Hrun.
    discriminate Hrun.
  - rewrite (run_excepted fuel c c1 e Hloop) in Hrun.
    injection Hrun as <- <-. exists c1. split; [exact Hloop|].
    split; [exact Hg|]. unfold exception_records. cbn.
    rewrite Hg, Hh. by destruct (_is_shutting_down c).
Qed.

(** X8. When the firmware's output ends between two frames, the run ends
    with [IndexError]; it adds the records of the [except] branch and
    nothing else. *)
Theorem closed_stream_ends_run (n fuel : nat) c0 c :
  after_frames n c0 = Some c ->
  pending (stdout c) = [] ->
  exists c',
    _run (n + S fuel) c0 = (c', Ok (Excepted IndexError))
    /\ trace c' = trace c ++ exception_records c IndexError
    /\ stdin c' = stdin c
    /\ _xbee c' = _xbee c
    /\ _hw_sim c' = _hw_sim c.
Proof.
  intros Hn Hp.
  assert (_run_loop (n + S fuel) c0 = (consumed [] [] c, Raise IndexError)) as Hloop.
  { rewrite (run_loop_after_frames _ _ _ _ Hn). simpl.
    unfold bind at 1, _run_body, bind at 1.
    rewrite stdout_read_any, Hp. reflexivity. }
  rewrite (run_excepted _ _ _ _ Hloop).
  eexists. split; [reflexivity|]. by repeat split.
Qed.

Lemma rocket_handshake_cases c :
  (take 3 (pending (stdout c)) = [x53; x59; x4e] ->
     exists c',
       _rocket_handshake c = (c', Ok tt)
       /\ stdin c' = stdin c ++ [x41; x43; x4b]
       /\ pending (stdout c') = drop 3 (pending (stdout c))
       /\ trace c' = trace c ++ [StdinFlush])
  /\ (take 3 (pending (stdout c)) <> [x53; x59; x4e] ->
      exists c',
        _rocket_handshake c = (c', Raise AssertionError)
        /\ stdin c' = stdin c
        /\ trace c' = trace c
        /\ bigEndianInts c' = bigEndianInts c
        /\ bigEndianFloats c' = bigEndianFloats c).
Proof.
  split; intros Hsyn; unfold _rocket_handshake;
    erewrite bind_ok by apply stdout_read_any;
    unfold bind at 1, assert.
  - rewrite bool_decide_eq_true_2 by done.
    unfold bind, ret, modify, emit, modify.
    eexists. split; [reflexivity|]. by repeat split.
  - rewrite bool_decide_eq_false_2 by done.
    eexists. split; [reflexivity|]. by repeat split.
Qed.

(** X10. The handshake answers ACK and flushes when the first three bytes
    are SYN; otherwise it raises [AssertionError] and writes nothing. *)
Theorem handshake_needs_syn c :
  (take 3 (pending (stdout c)) = [x53; x59; x4e] ->
     exists c',
       _rocket_handshake c = (c', Ok tt)
       /\ stdin c' = stdin c ++ [x41; x43; x4b]
       /\ pending (stdout c') = drop 3 (pending (stdout c))
       /\ trace c' = trace c ++ [StdinFlush])
  /\ (take 3 (pending (stdout c)) <> [x53; x59; x4e] ->
      exists c',
        _rocket_handshake c = (c', Raise AssertionError)
        /\ stdin c' = stdin c
        /\ trace c' = trace c
        /\ bigEndianInts c' = bigEndianInts c
        /\ bigEndianFloats c' = bigEndianFloats c).
Proof. apply rocket_handshake_cases. Qed.

Lemma bind_inv {S A B} (m : M S A) (k : A -> M S B) (s s' : S) (b : B) :
  bind m k s = (s', Ok b) ->
  exists s1 a, m s = (s1, Ok a) /\ k a s1 = (s', Ok b).
Proof.
  unfold bind. destruct (m s) as [s1 [a|e]]; [|discriminate].
  intros Hk. by exists s1, a.
Qed.

Lemma assert_inv {S} (cond : bool) (s s' : S) :
  assert cond s = (s', Ok tt) -> cond = true /\ s' = s.
Proof. destruct cond; [by intros [= <-]|discriminate]. Qed.

Lemma index0_inv {S} (bs : list byte) (s s' : S) (z : Z) :
  index0 bs s = (s', Ok z) -> exists b bs', bs = b :: bs' /\ z = b2z b /\ s' = s.
Proof.
  destruct bs as [|b bs']; [discriminate|]. intros [= <- <-]. by exists b, bs'.
Qed.

Lemma getEndianness_inv c c' :
  _getEndianness c = (c', Ok tt) ->
  exists tail d0 d4,
    pending (stdout c) = [x01; x00; x08] ++ tail
    /\ tail !! 0%nat = Some d0
    /\ tail !! 4%nat = Some d4
    /\ bigEndianInts c' = Some (b2z d0 =? 0x04)
    /\ bigEndianFloats c' = Some (b2z d4 =? 0xC0)
    /\ pending (stdout c') = drop 8 tail.
Proof.
  intros Hok. unfold _getEndianness in Hok.
  destruct c as [id0 bi bf [p h hs] sin x hw sd tr].
  cbn [pending stdout].
  apply bind_inv in Hok as (s1 & b & Hread & Hok).
  rewrite stdout_read_any in Hread. injection Hread as <- <-.
  apply bind_inv in Hok as (s2 & id & Hid & Hok).
  apply index0_inv in Hid as (b0 & bs' & Hb & -> & ->).
  apply bind_inv in Hok as (s3 & [] & Has & Hok).
  apply assert_inv in Has as [Hcfg ->].
  apply (b2z_eqb b0 x01) in Hcfg as ->.
  cbn [pending stdout] in Hb, Hok.
  destruct p as [|b1 p]; [discriminate Hb|].
  cbn [take] in Hb. injection Hb as -> _.
  apply bind_inv in Hok as (s4 & len & Hlen & Hok).
  unfold _getLength in Hlen.
  apply bind_inv in Hlen as (s5 & bs & Hread & Hlen).
  rewrite stdout_read_any in Hread. injection Hread as <- <-.
  cbn [pending stdout consumed set_stdout take drop] in Hlen.
  destruct p as [|msb [|lsb tail]]; try discriminate Hlen.
  cbn [take] in Hlen. injection Hlen as <- <-.
  rewrite ?drop_0, ?take_0 in Hok.
  apply bind_inv in Hok as (s6 & [] & Has & Hok).
  apply assert_inv in Has as [Hlen8 ->].
  pose proof (b2z_range msb) as Hm. pose proof (b2z_range lsb) as Hl.
  rewrite lor_shiftl_8 in Hlen8, Hok by lia.
  apply Z.eqb_eq in Hlen8.
  assert (msb = x00) as -> by (apply b2z_inj; change (b2z x00) with 0; lia).
  assert (lsb = x08) as -> by (apply b2z_inj; change (b2z x08) with 8; lia).
  change (Z.to_nat (b2z x00 * 256 + b2z x08)) with 8%nat in Hok.
  apply bind_inv in Hok as (s7 & data & Hread & Hok).
  rewrite stdout_read_any in Hread. injection Hread as <- <-.
  cbn [pending stdout consumed set_stdout drop] in Hok.
  apply bind_inv in Hok as (s8 & d0z & Hd0 & Hok).
  unfold lift in Hd0.
  destruct (take 8 tail !! 0%nat) as [d0|] eqn:E0; [|discriminate Hd0].
  injection Hd0 as <- <-.
  apply bind_inv in Hok as (s9 & [] & Hm1 & Hok).
  injection Hm1 as <-.
  apply bind_inv in Hok as (s10 & d4z & Hd4 & Hok).
  unfold lift in Hd4.
  destruct (take 8 tail !! 4%nat) as [d4|] eqn:E4; [|discriminate Hd4].
  injection Hd4 as <- <-.
  apply bind_inv in Hok as (s11 & [] & Hm2 & Hok).
  injection Hm2 as <-.
  apply bind_inv in Hok as (s12 & cc & Hget & Hok).
  injection Hget as <- <-.
  injection Hok as <-.
  exists tail, d0, d4.
  rewrite lookup_take_lt in E0 by lia. rewrite lookup_take_lt in E4 by lia.
  by repeat split.
Qed.

Lemma getEndianness_accepts c (tail : list byte) (d0 d4 : byte) :
  pending (stdout c) = [x01; x00; x08] ++ tail ->
  tail !! 0%nat = Some d0 ->
  tail !! 4%nat = Some d4 ->
  exists c', _getEndianness c = (c', Ok tt).
Proof.
  intros Hp H0 H4.
  do 5 (destruct tail as [|? tail]; try discriminate H4).
  destruct c as [id bi bf [p h hs] sin x hw sd tr]. simpl in Hp. subst p.
  eexists. cbv -[b2z Z.eqb String.app keep_last app take drop]. reflexivity.
Qed.

Lemma init_inv (executable_name : string) (hw_sim : H) (xbee : X)
    (out : list byte) c :
  SimConnection_init executable_name hw_sim xbee out = (c, Ok tt) ->
  exists tail d0 d4,
    out = [x53; x59; x4e] ++ [x01; x00; x08] ++ tail
    /\ tail !! 0%nat = Some d0
    /\ tail !! 4%nat = Some d4
    /\ bigEndianInts c = Some (b2z d0 =? 0x04)
    /\ bigEndianFloats c = Some (b2z d4 =? 0xC0)
    /\ pending (stdout c) = drop 8 tail.
Proof.
  unfold SimConnection_init. intros Hok.
  apply bind_inv in Hok as (c1 & [] & Hhs & Hcfg).
  match type of Hhs with _rocket_handshake ?c0 = _ => set (c0' := c0) in * end.
  destruct (rocket_handshake_cases c0') as [Hsyn Hnot].
  destruct (decide (take 3 (pending (stdout c0')) = [x53; x59; x4e])) as [E|E].
  - destruct (Hsyn E) as (c1' & Hrun & _ & Hrest & _).
    rewrite Hhs in Hrun. injection Hrun as <-.
    destruct (getEndianness_inv c1 c Hcfg) as (tail & d0 & d4 & Hp & Hrestp).
    exists tail, d0, d4. split; [|exact Hrestp].
    cbn [pending stdout c0'] in E, Hrest.
    rewrite <- (take_drop 3 out), E, <- Hrest, Hp. reflexivity.
  - destruct (Hnot E) as (c1' & Hrun & _). rewrite Hhs in Hrun. discriminate Hrun.
Qed.

(** X11. Construction succeeds exactly when the firmware's output begins
    with SYN and a Config frame header 01 00 08 followed by at least five
    bytes: the payload is not checked to have all of its eight bytes. *)
Theorem init_accepts_iff (executable_name : string) (hw_sim : H) (xbee : X)
    (out : list byte) :
  (exists c, SimConnection_init executable_name hw_sim xbee out = (c, Ok tt))
  <-> exists tail,
        out = [x53; x59; x4e] ++ [x01; x00; x08] ++ tail
        /\ (5 <= length tail)%nat.
Proof.
  split.
  - intros [c Hok].
    destruct (init_inv _ _ _ _ _ Hok) as (tail & d0 & d4 & Hout & H0 & H4 & _).
    exists tail. split; [exact Hout|].
    apply lookup_lt_Some in H4. lia.
  - intros (tail & -> & Hlen).
    destruct (lookup_lt_is_Some_2 tail 0) as [d0 H0]; [lia|].
    destruct (lookup_lt_is_Some_2 tail 4) as [d4 H4]; [lia|].
    unfold SimConnection_init.
    match goal with |- context [(_ ;; _) ?c0] => set (c0' := c0) end.
    destruct (proj1 (rocket_handshake_cases c0') eq_refl)
      as (c1 & Hhs & _ & Hrest & _).
    destruct (getEndianness_accepts c1 tail d0 d4 Hrest H0 H4) as [c Hcfg].
    exists c. by rewrite (bind_ok _ _ _ _ _ Hhs).
Qed.

(** X14. On a constructed connection [isIntBigEndian] and
    [isFloatBigEndian] return, and they return the same after any run of
    the read loop. *)
Theorem init_answers_endianness (executable_name : string) (hw_sim : H)
    (xbee : X) (out : list byte) c :
  SimConnection_init executable_name hw_sim xbee out = (c, Ok tt) ->
  exists i f,
    isIntBigEndian c = (c, Ok i)
    /\ isFloatBigEndian c = (c, Ok f)
    /\ forall (fuel : nat) c' exit,
         _run fuel c = (c', exit) ->
         isIntBigEndian c' = (c', Ok i) /\ isFloatBigEndian c' = (c', Ok f).
Proof.
  intros Hok.
  destruct (init_inv _ _ _ _ _ Hok) as (tail & d0 & d4 & _ & _ & _ & Hi & Hf & _).
  exists (b2z d0 =? 0x04), (b2z d4 =? 0xC0).
  unfold isIntBigEndian, isFloatBigEndian, bind, get.
  rewrite Hi, Hf. split; [reflexivity|]. split; [reflexivity|].
  intros fuel c' exit Hrun.
  destruct (run_summary fuel c) as (c1 & e1 & added & Hrun1 & _ & Hi1 & Hf1 & _).
  rewrite Hrun in Hrun1. injection Hrun1 as -> _.
  by rewrite Hi1, Hf1, Hi, Hf.
Qed.

(** *** The loop only moves forward *)

Lemma advances_refl c : advances c c.
Proof. by split. Qed.

Lemma advances_trans c1 c2 c3 : advances c1 c2 -> advances c2 c3 -> advances c1 c3.
Proof.
  intros [Hp Hi Ht] [Hp' Hi' Ht'].
  split; [by trans (pending (stdout c2)) | by trans (stdin c2) | by trans (trace c2)].
Qed.

Lemma moves_on_ret {A} (a : A) : moves_on (X:=X) (H:=H) (ret a).
Proof. intros c. apply advances_refl. Qed.

Lemma moves_on_raise {A} (e : exn) : moves_on (X:=X) (H:=H) (@raise _ A e).
Proof. intros c. apply advances_refl. Qed.

Lemma moves_on_lift {A} (r : result A) : moves_on (X:=X) (H:=H) (lift r).
Proof. intros c. apply advances_refl. Qed.

Lemma moves_on_get : moves_on (@get (@SimConnection X H)).
Proof. intros c. apply advances_refl. Qed.

Lemma moves_on_assert (cond : bool) : moves_on (X:=X) (H:=H) (assert cond).
Proof. destruct cond; [apply moves_on_ret | apply moves_on_raise]. Qed.

Lemma moves_on_index0 (bs : list byte) : moves_on (X:=X) (H:=H) (index0 bs).
Proof. destruct bs; [apply moves_on_raise | apply moves_on_ret]. Qed.

Lemma moves_on_bind {A B} (m : M (@SimConnection X H) A)
    (k : A -> M (@SimConnection X H) B) :
  moves_on m -> (forall a, moves_on (k a)) -> moves_on (bind m k).
Proof.
  intros Hm Hk c. unfold bind. specialize (Hm c).
  destruct (m c) as [c1 [a|e]]; simpl in *; [|done].
  eapply advances_trans; [exact Hm | apply Hk].
Qed.

Lemma moves_on_try_except {A} (m : M (@SimConnection X H) A)
    (h : exn -> M (@SimConnection X H) A) :
  moves_on m -> (forall e, moves_on (h e)) -> moves_on (try_except m h).
Proof.
  intros Hm Hh c. unfold try_except. specialize (Hm c).
  destruct (m c) as [c1 [a|e]]; simpl in *; [done|].
  eapply advances_trans; [exact Hm | apply Hh].
Qed.

Lemma moves_on_stdout_read (n : nat) : moves_on (X:=X) (H:=H) (stdout_read n).
Proof.
  intros c. rewrite stdout_read_any. split; try done.
  cbn. apply suffix_drop.
Qed.

Lemma moves_on_on_xbee {A} (m : M X A) : moves_on (X:=X) (H:=H) (on_xbee m).
Proof. intros c. unfold on_xbee. by destruct (m (_xbee c)). Qed.

Lemma moves_on_on_hw_sim {A} (m : M H A) : moves_on (X:=X) (H:=H) (on_hw_sim m).
Proof. intros c. unfold on_hw_sim. by destruct (m (_hw_sim c)). Qed.

Lemma moves_on_emit (e : Event) : moves_on (X:=X) (H:=H) (emit e).
Proof. intros c. split; try done. cbn. by apply prefix_app_r. Qed.

Lemma moves_on_stdin_write_each (packet : list byte) :
  moves_on (X:=X) (H:=H) (stdin_write_each packet).
Proof.
  intros c. rewrite stdin_write_each_spec. split; try done.
  cbn. by apply prefix_app_r.
Qed.

Lemma moves_on_log_history : moves_on (X:=X) (H:=H) log_history.
Proof.
  intros c. rewrite log_history_spec. split; try done.
  cbn. by apply prefix_app_r.
Qed.

Create HintDb moves_on.

#[local] Hint Resolve moves_on_ret moves_on_raise moves_on_lift moves_on_get
  moves_on_assert moves_on_index0 moves_on_stdout_read moves_on_on_xbee
  moves_on_on_hw_sim moves_on_emit moves_on_stdin_write_each
  moves_on_log_history : moves_on.

Ltac moves_on_step :=
  lazymatch goal with
  | |- moves_on (bind _ _) => apply moves_on_bind; [|intros ?]
  | |- moves_on (try_except _ _) => apply moves_on_try_except; [|intros ?]
  | |- moves_on (match ?x with _ => _ end) => destruct x
  | |- moves_on (if ?x then _ else _) => destruct x
  | |- moves_on _ => solve [auto with moves_on]
  end.

Lemma moves_on_send_sim_packet (id_ : Z) (data : list byte) :
  moves_on (X:=X) (H:=H) (_send_sim_packet id_ data).
Proof. unfold _send_sim_packet. repeat moves_on_step. Qed.

Lemma moves_on_getLength : moves_on (X:=X) (H:=H) _getLength.
Proof. unfold _getLength. repeat moves_on_step. Qed.

#[local] Hint Resolve moves_on_send_sim_packet moves_on_getLength : moves_on.

Lemma moves_on_packetHandlers (id : Z) (handler : M (@SimConnection X H) unit) :
  packetHandlers !! id = Some handler -> moves_on handler.
Proof.
  rewrite packetHandlers_lookup.
  repeat case_decide; intros [= <-].
  - unfold _handleBuzzer. repeat moves_on_step.
  - unfold _handleDigitalPinWrite. repeat moves_on_step.
  - unfold _handleRadio. repeat moves_on_step.
  - unfold _handleAnalogRead. repeat moves_on_step.
  - unfold _handleSensorRead. repeat moves_on_step.
Qed.

Lemma moves_on_run_body : moves_on (X:=X) (H:=H) _run_body.
Proof.
  unfold _run_body.
  apply moves_on_bind; [apply moves_on_stdout_read|intros b].
  apply moves_on_bind; [apply moves_on_index0|intros id].
  destruct (packetHandlers !! id) as [handler|] eqn:Hh.
  - pose proof (moves_on_packetHandlers _ _ Hh). repeat moves_on_step.
  - repeat moves_on_step.
Qed.

Lemma moves_on_run_loop (fuel : nat) : moves_on (X:=X) (H:=H) (_run_loop fuel).
Proof.
  induction fuel as [|fuel IH]; simpl; [apply moves_on_ret|].
  apply moves_on_bind; [apply moves_on_run_body|].
  intros []; [apply moves_on_ret | exact IH].
Qed.

Lemma moves_on_run (fuel : nat) : moves_on (X:=X) (H:=H) (_run fuel).
Proof.
  pose proof (moves_on_run_loop fuel). unfold _run. repeat moves_on_step.
Qed.

(** X9. A run of the read loop never puts input back or reorders it, never
    rewrites what was written to the firmware or logged, and changes
    neither the identity nor the shutdown guard. *)
Theorem run_only_moves_forward (fuel : nat) c :
  let c' := (_run fuel c).1 in
  pending (stdout c') `suffix_of` pending (stdout c)
  /\ stdin c `prefix_of` stdin c'
  /\ trace c `prefix_of` trace c'
  /\ hwid c' = hwid c
  /\ _is_shutting_down c' = _is_shutting_down c.
Proof.
  destruct (moves_on_run fuel c) as [Hp Hi Ht].
  destruct (run_summary fuel c) as (c1 & e1 & added & Hrun & Hh & _ & _ & Hg & _).
  cbn zeta. rewrite Hrun in *. by repeat split.
Qed.
End BridgeMore.

(* ===================================================================== *)
(** ** More about the decoder *)
(* ===================================================================== *)

(** X15. [bitfrombyte] returns the bit of [val] at [targetIndex], as 0 or
    1; a negative index raises [ValueError]. *)
Theorem bitfrombyte_is_testbit (val targetIndex : Z) :
  (0 <= targetIndex ->
     bitfrombyte val targetIndex = Ok (Z.b2z (Z.testbit val targetIndex)))
  /\ (targetIndex < 0 ->
      bitfrombyte val targetIndex = Raise (ValueError "negative shift count")).
Proof.
  unfold bitfrombyte, py_lshift, py_rshift. split; intros Hi.
  - apply Z.ltb_ge in Hi as Hnonneg. rewrite Hnonneg. f_equal.
    apply Z.bits_inj'. intros n Hn.
    rewrite Z.shiftr_spec, Z.land_spec, Z.shiftl_1_l, Z.pow2_bits_eqb by lia.
    destruct (Z.eq_dec n 0) as [->|Hn0].
    + rewrite Z.add_0_l, Z.eqb_refl, andb_true_r. by rewrite Z.b2z_bit0.
    + replace (targetIndex =? n + targetIndex) with false
        by (symmetry; apply Z.eqb_neq; lia).
      rewrite andb_false_r.
      destruct (Z.testbit val targetIndex); cbn [Z.b2z].
      * change 1 with (2 ^ 0). rewrite Z.pow2_bits_eqb by lia.
        symmetry. apply Z.eqb_neq. lia.
      * by rewrite Z.bits_0.
  - apply Z.ltb_lt in Hi. by rewrite Hi.
Qed.

Lemma be_digits_be_value_4 (bs : list byte) :
  length bs = 4%nat -> be_digits 4 (be_value bs) = bs.
Proof.
  intros Hlen. do 5 (destruct bs as [|? bs]; try discriminate Hlen).
  unfold be_value. cbn [fold_left be_digits].
  pose proof (b2z_range b). pose proof (b2z_range b0).
  pose proof (b2z_range b1). pose proof (b2z_range b2).
  change (256 ^ Z.of_nat 3) with 16777216. change (256 ^ Z.of_nat 2) with 65536.
  change (256 ^ Z.of_nat 1) with 256. change (256 ^ Z.of_nat 0) with 1.
  repeat f_equal.
  all: rewrite <- z2b_b2z; f_equal;
    Z.to_euclidean_division_equations; lia.
Qed.

Lemma be_value_range_4 (bs : list byte) :
  length bs = 4%nat -> 0 <= be_value bs < 2 ^ 32.
Proof.
  intros Hlen. do 5 (destruct bs as [|? bs]; try discriminate Hlen).
  unfold be_value. cbn [fold_left].
  pose proof (b2z_range b). pose proof (b2z_range b0).
  pose proof (b2z_range b1). pose proof (b2z_range b2).
  change (2 ^ 32) with 4294967296. lia.
Qed.

Section DecoderMore.
Variable ids : SubpacketIds.

(** X16. [fourtoint] maps the strings of four bytes one to one onto the
    integers below 2^32, in the byte order of the flag, and raises
    [AssertionError] on any other length. *)
Theorem fourtoint_bijection (d : Decoding) :
  let big := truthy (big_endian_ints (self d)) in
  (forall bs : list byte,
     length bs = 4%nat ->
     exists v,
       fourtoint bs d = (d, Ok v)
       /\ 0 <= v < 2 ^ 32
       /\ (if big then be_digits 4 v else rev (be_digits 4 v)) = bs)
  /\ (forall v : Z,
        0 <= v < 2 ^ 32 ->
        fourtoint (if big then be_digits 4 v else rev (be_digits 4 v)) d
        = (d, Ok v))
  /\ (forall bs : list byte,
        length bs <> 4%nat -> fourtoint bs d = (d, Raise AssertionError)).
Proof.
  intros big. split; [|split].
  - intros bs Hlen. unfold fourtoint, bind, assert, get, ret.
    rewrite Hlen. cbn [Nat.eqb]. fold big.
    eexists. split; [reflexivity|]. unfold unpack_32. destruct big.
    + split; [by apply be_value_range_4|by apply be_digits_be_value_4].
    + split; [apply be_value_range_4; by rewrite length_rev|].
      rewrite be_digits_be_value_4 by (by rewrite length_rev).
      apply rev_involutive.
  - intros v Hv. unfold fourtoint, bind, assert, get, ret. fold big.
    replace (length (if big then be_digits 4 v else rev (be_digits 4 v)) =? 4)%nat
      with true by (by destruct big).
    f_equal. f_equal. exact (unpack_pack_f32 big v Hv).
  - intros bs Hlen. unfold fourtoint, bind, assert.
    apply Nat.eqb_neq in Hlen. by rewrite Hlen.
Qed.

(** [extract] when the header is read and the parser returns. *)
Lemma extract_returns (d : Decoding) (b : byte) (ts tail : list byte)
    (fn : ParserFn) (d2 : Decoding) (record : Dict) :
  big_endian_ints (self d) <> None ->
  big_endian_floats (self d) <> None ->
  byte_stream d = b :: ts ++ tail ->
  length ts = 4%nat ->
  isSubpacketID ids (b2z b) = true ->
  packetTypeToParser (self d) !! b2z b = Some fn ->
  let h := {| subpacket_id := b2z b;
              timestamp := unpack_32 (truthy (big_endian_ints (self d))) ts |} in
  call_parser ids fn h {| self := self d; byte_stream := tail; emitted := emitted d |}
  = (d2, Ok record) ->
  extract ids d
  = (cleared d2,
     Ok (<[inl (SubpacketEnum_TIME ids) := VInt (timestamp h)]> record)).
Proof.
  intros Hi Hf Hs Hlen Hid Hreg h Hcall.
  rewrite extract_cases, !bool_decide_eq_false_2 by done. cbn [orb].
  rewrite (header_recognized ids d b ts tail Hs Hlen Hid).
  unfold parse_data, bind at 1, get. cbn [self subpacket_id].
  rewrite Hreg. fold h. by rewrite Hcall.
Qed.

(** X17. With endianness set, [extract] raises [IndexError] on an empty
    stream and [AssertionError] when the stream ends inside the time stamp
    of a recognized subpacket; the endianness is not cleared. *)
Theorem extract_header_errors (d : Decoding) :
  big_endian_ints (self d) <> None ->
  big_endian_floats (self d) <> None ->
  (byte_stream d = [] -> extract ids d = (d, Raise IndexError))
  /\ (forall (b : byte) (ts : list byte),
        byte_stream d = b :: ts ->
        isSubpacketID ids (b2z b) = true ->
        (length ts < 4)%nat ->
        extract ids d
        = ({| self := self d; byte_stream := []; emitted := emitted d |},
           Raise AssertionError)).
Proof.
  intros Hi Hf. split.
  - intros Hs. rewrite extract_cases, !bool_decide_eq_false_2 by done. cbn [orb].
    unfold header, bind at 1, read. rewrite Hs. cbn.
    destruct d as [p bs evs]. cbn in Hs. by subst bs.
  - intros b ts Hs Hid Hlen.
    rewrite extract_cases, !bool_decide_eq_false_2 by done. cbn [orb].
    unfold header, bind at 1, read. rewrite Hs. cbn [take drop].
    unfold bind at 1, index0, ret at 1. rewrite Hid. cbn [negb].
    unfold bind at 1, ret at 1. unfold bind at 1. cbn [byte_stream].
    rewrite ?drop_0, ?take_0.
    unfold bind at 1, fourtoint, bind at 1, assert.
    rewrite take_ge, drop_ge by lia.
    replace (length ts =? 4)%nat with false
      by (symmetry; apply Nat.eqb_neq; lia).
    reflexivity.
Qed.

(** X18. An Event subpacket decodes to its one-byte code and the time
    stamp. *)
Theorem extract_event (d : Decoding) (b code : byte) (ts rest : list byte) :
  big_endian_ints (self d) <> None ->
  big_endian_floats (self d) <> None ->
  byte_stream d = b :: ts ++ code :: rest ->
  length ts = 4%nat ->
  isSubpacketID ids (b2z b) = true ->
  packetTypeToParser (self d) !! b2z b = Some Bound_event ->
  extract ids d
  = ({| self := set_endianness None None (self d);
        byte_stream := rest; emitted := emitted d |},
     Ok (<[inl (SubpacketEnum_TIME ids)
             := VInt (unpack_32 (truthy (big_endian_ints (self d))) ts)]>
           {[ inl (SubpacketEnum_EVENT ids) := VInt (b2z code) ]})).
Proof.
  intros Hi Hf Hs Hlen Hid Hreg.
  by rewrite (extract_returns d b ts (code :: rest) Bound_event
                {| self := self d; byte_stream := rest; emitted := emitted d |}
                {[ inl (SubpacketEnum_EVENT ids) := VInt (b2z code) ]}).
Qed.


(** X20. A Config subpacket with a known device id and forty ASCII bytes
    of version decodes to the three fields and the time stamp, logs them
    and counts the event. *)
Theorem extract_config (d : Decoding) (b sim dev : byte)
    (ts version rest : list byte) (device : DeviceType) :
  big_endian_ints (self d) <> None ->
  big_endian_floats (self d) <> None ->
  byte_stream d = b :: ts ++ sim :: dev :: version ++ rest ->
  length ts = 4%nat ->
  length version = VERSION_ID_LEN ->
  forallb (fun c => b2z c <? 128) version = true ->
  ID_TO_DEVICE !! b2z dev = Some device ->
  isSubpacketID ids (b2z b) = true ->
  packetTypeToParser (self d) !! b2z b = Some Bound_config ->
  let is_sim := negb (b2z sim =? 0) in
  let text := String.string_of_list_byte version in
  extract ids d
  = ({| self := set_endianness None None (self d);
        byte_stream := rest;
        emitted :=
          emitted d
          ++ [Log INFO ("Config: SIM? " +:+ (if is_sim then "True" else "False")
                        +:+ ", Rocket type = " +:+ DeviceType_str device
                        +:+ ", Version ID = " +:+ text);
              Increment "config"] |},
     Ok (<[inl (SubpacketEnum_TIME ids)
             := VInt (unpack_32 (truthy (big_endian_ints (self d))) ts)]>
           (<[inr VERSION_ID := VStr text]>
              (<[inr DEVICE_TYPE := VDevice device]>
                 {[ inr IS_SIM := VBool is_sim ]})))).
Proof.
  intros Hi Hf Hs Hlen Hlenv Hascii Hdev Hid Hreg is_sim text.
  rewrite (extract_returns d b ts (sim :: dev :: version ++ rest) Bound_config
             {| self := self d; byte_stream := rest;
                emitted :=
                  emitted d
                  ++ [Log INFO ("Config: SIM? " +:+ (if is_sim then "True" else "False")
                                +:+ ", Rocket type = " +:+ DeviceType_str device
                                +:+ ", Version ID = " +:+ text);
                      Increment "config"] |}
             (<[inr VERSION_ID := VStr text]>
                (<[inr DEVICE_TYPE := VDevice device]>
                   {[ inr IS_SIM := VBool is_sim ]}))); try done.
  cbn [call_parser]. unfold config, bind at 1, read. cbn [byte_stream take drop].
  unfold bind at 1, index0, ret at 1.
  unfold bind at 1. cbn [byte_stream take drop self emitted].
  unfold bind at 1, index0, ret at 1.
  unfold bind at 1, lift. rewrite Hdev. cbn [from_option].
  unfold bind at 1. cbn [byte_stream self emitted]. rewrite ?drop_0.
  rewrite take_app_length', drop_app_length' by done.
  unfold bind at 1, lift, decode_ascii. rewrite Hascii.
  unfold bind, say, modify, ret. cbn [self byte_stream emitted].
  rewrite <- app_assoc. rewrite insert_empty. reflexivity.
Qed.

(** X21. [register_packet] binds one id and no other: [parse_data] on that
    id runs the registered function on the stream, the other entries and
    the endianness stay as they were. *)
Theorem register_packet_dispatch (p : PacketParser) (packetType : Z)
    (parsing_fn : Header -> M (list byte) Dict) :
  let p' := register_packet packetType parsing_fn p in
  big_endian_ints p' = big_endian_ints p
  /\ big_endian_floats p' = big_endian_floats p
  /\ (forall j, j <> packetType ->
        packetTypeToParser p' !! j = packetTypeToParser p !! j)
  /\ (forall (h : Header) (bs : list byte) (evs : list Event),
        subpacket_id h = packetType ->
        parse_data ids h {| self := p'; byte_stream := bs; emitted := evs |}
        = ({| self := p'; byte_stream := (parsing_fn h bs).1; emitted := evs |},
           (parsing_fn h bs).2)).
Proof.
  intros p'. split; [reflexivity|]. split; [reflexivity|]. split.
  - intros j Hj. unfold p', register_packet. cbn.
    by rewrite lookup_insert_ne.
  - intros h bs evs Hh. unfold parse_data, bind, get. cbn [self].
    unfold p' at 1, register_packet at 1. cbn [packetTypeToParser].
    rewrite Hh, lookup_insert_eq. cbn [call_parser byte_stream self emitted].
    by destruct (parsing_fn h bs).
Qed.

Lemma lookup_fold_insert (l : list Z) (m : gmap Z ParserFn) (v : ParserFn) (j : Z) :
  fold_left (fun m i => <[i := v]> m) l m !! j
  = if decide (j ∈ l) then Some v else m !! j.
Proof.
  revert m. induction l as [|i l IH]; intros m; cbn [fold_left].
  - by rewrite decide_False by apply not_elem_of_nil.
  - rewrite IH. destruct (decide (j ∈ l)) as [Hl|Hl].
    + by rewrite decide_True by (by right).
    + destruct (decide (j = i)) as [->|Hne].
      * rewrite decide_True by left. apply lookup_insert_eq.
      * rewrite decide_False by (by intros [?|?]%elem_of_cons).
        by apply lookup_insert_ne.
Qed.

(** X22. The registry of a new decoder: the sensor ids go to
    [single_sensor], also when one of them is the id of Config, Event or
    Message; then Config, Event and Message in this order of precedence;
    every other id has no parser. *)
Theorem init_registry (j : Z) :
  packetTypeToParser (PacketParser_init ids) !! j
  = if decide (j ∈ get_list_of_sensor_IDs ids) then Some Bound_single_sensor
    else if decide (j = SubpacketEnum_CONFIG ids) then Some Bound_config
    else if decide (j = SubpacketEnum_EVENT ids) then Some Bound_event
    else if decide (j = SubpacketEnum_MESSAGE ids) then Some Bound_message
    else None.
Proof.
  unfold PacketParser_init. cbn [packetTypeToParser].
  rewrite lookup_fold_insert. case_decide; [done|].
  do 3 (case_decide; [subst j; apply lookup_insert_eq
                     | rewrite lookup_insert_ne by done]).
  apply lookup_empty.
Qed.

Lemma length_string_of_list_byte (bs : list byte) :
  String.length (String.string_of_list_byte bs) = length bs.
Proof.
  unfold String.string_of_list_byte.
  induction bs as [|b bs IH]; [done|]. cbn. by rewrite IH.
Qed.

(** X23. [message] takes the text that is there: when the stream ends
    before the announced length, the shorter text is returned without an
    error; a byte above 127 raises [UnicodeDecodeError] after the text has
    been consumed. *)
Theorem message_reads_what_is_there (d : Decoding) (h : Header)
    (len : byte) (tail : list byte) :
  byte_stream d = len :: tail ->
  let n := Z.to_nat (b2z len) in
  let text := take n tail in
  (forallb (fun c => b2z c <? 128) text = true ->
     message ids h d
     = ({| self := self d; byte_stream := drop n tail;
           emitted := emitted d
                      ++ [Log INFO ("Incoming message: "
                                    +:+ String.string_of_list_byte text)] |},
        Ok {[ inl (SubpacketEnum_MESSAGE ids)
                := VStr (String.string_of_list_byte text) ]})
     /\ String.length (String.string_of_list_byte text) = Nat.min n (length tail))
  /\ (forallb (fun c => b2z c <? 128) text = false ->
      message ids h d
      = ({| self := self d; byte_stream := drop n tail; emitted := emitted d |},
         Raise UnicodeDecodeError)).
Proof.
  intros Hs n text.
  assert (forall k : Z -> M Decoding Dict,
            bind (read 1) (fun b => bind (index0 b) k) d
            = k (b2z len) {| self := self d; byte_stream := tail;
                             emitted := emitted d |}) as Hhead.
  { intros k. unfold bind at 1, read. rewrite Hs. cbn [take drop].
    rewrite drop_0. reflexivity. }
  split; intros Hascii; unfold message; rewrite Hhead;
    unfold bind at 1, read; cbn [byte_stream self emitted];
    fold n; fold text; unfold bind at 1, lift, decode_ascii; rewrite Hascii.
  - split; [by rewrite insert_empty|].
    rewrite length_string_of_list_byte. apply length_take.
  - reflexivity.
Qed.
End DecoderMore.

(* ===================================================================== *)
(** ** Locating the firmware, profiles and the command line *)
(* ===================================================================== *)

Section FindExecutableFacts.
Variable LOCAL : string.
Variable EXECUTABLE_FILE_EXTENSION : string.
Variable parent : string -> string.
Variable join : string -> string -> string.
Variable path_exists : string -> bool.

(** X24. [_find_executable] returns exactly when one of the two build
    files exists, with the path of that file and its directory; with both
    or neither it raises [FirmwareNotFound]. *)
Theorem find_executable_one_build (executable_name : string) :
  let flare := flare_path LOCAL parent join in
  let local := local_path LOCAL join in
  let neighbour_file := executable_name +:+ EXECUTABLE_FILE_EXTENSION in
  let child_file := local_name EXECUTABLE_FILE_EXTENSION in
  let neighbour := path_exists (join flare neighbour_file) in
  let child := path_exists (join local child_file) in
  match _find_executable LOCAL EXECUTABLE_FILE_EXTENSION parent join path_exists
          executable_name with
  | inr found =>
      xorb neighbour child = true
      /\ path_exists (executablePath found) = true
      /\ firmwareDir found = (if neighbour then flare else local)
      /\ executablePath found
         = join (firmwareDir found) (if neighbour then neighbour_file else child_file)
  | inl (mkFirmwareNotFound msg) =>
      neighbour = child
      /\ msg = (if neighbour
                then "Multiple build files found: " +:+ neighbour_file
                     +:+ " and " +:+ child_file
                else "No build files found with name " +:+ executable_name)
  end.
Proof.
  intros flare local neighbour_file child_file neighbour child.
  unfold _find_executable.
  fold flare local neighbour_file child_file. fold neighbour child.
  destruct neighbour eqn:En, child eqn:Ec; cbn [andb xorb]; repeat split; done.
Qed.
End FindExecutableFacts.

Section ProfileFacts.
Variable AppData : Type.
Implicit Type w : MainWindow AppData.

(** X25. [update_labels] succeeds exactly when every label has its widget;
    it creates and removes no widget, leaves the widgets of no label and
    the data of the window as they were. *)
Theorem update_labels_frame (labels : list (Label AppData)) w :
  let w' := (update_labels labels w).1 in
  dom (widgets w') = dom (widgets w)
  /\ app_data w' = app_data w
  /\ (forall attr : string,
        attr ∉ map widget_of labels ->
        widgets w' !! attr = widgets w !! attr)
  /\ ((update_labels labels w).2 = inr tt
      <-> forall label, label ∈ labels -> is_Some (widgets w !! widget_of label)).
Proof.
  revert w. induction labels as [|label labels IH]; intros w; cbn [update_labels].
  - repeat split; try done. intros _ label Hin. by apply elem_of_nil in Hin.
  - fold (widget_of label).
    destruct (widgets w !! widget_of label) as [old|] eqn:Hw.
    + specialize (IH (setText (widget_of label) (label_update label w) w)).
      cbn zeta in IH. destruct IH as (Hdom & Hdata & Hframe & Hiff).
      assert (dom (widgets (setText (widget_of label) (label_update label w) w))
              = dom (widgets w)) as Hset.
      { cbn. apply dom_insert_lookup_L. by rewrite Hw. }
      cbn zeta. split; [by rewrite Hdom|]. split; [by rewrite Hdata|]. split.
      * intros attr Hattr. cbn [map] in Hattr.
        apply not_elem_of_cons in Hattr as [Hne Hattr].
        rewrite (Hframe attr Hattr). cbn. by rewrite lookup_insert_ne.
      * rewrite Hiff. split.
        -- intros Hall l [->|Hl]%elem_of_cons; [by rewrite Hw|].
           apply elem_of_dom. rewrite <- Hset. apply elem_of_dom. by apply Hall.
        -- intros Hall l Hl. apply elem_of_dom. rewrite Hset. apply elem_of_dom.
           apply Hall. by right.
    + cbn. repeat split; try done.
      intros Hall. specialize (Hall label (list_elem_of_here _ _)).
      rewrite Hw in Hall. by destruct Hall.
Qed.
End ProfileFacts.

Lemma string_app_assoc (a b c : string) : (a +:+ b) +:+ c = a +:+ b +:+ c.
Proof.
  induction a as [|x a IH]; [done|].
  change (String x ((a +:+ b) +:+ c) = String x (a +:+ b +:+ c)). by rewrite IH.
Qed.

Lemma string_app_empty_r (a : string) : a +:+ "" = a.
Proof.
  induction a as [|x a IH]; [done|].
  change (String x (a +:+ "") = String x a). by rewrite IH.
Qed.

(** X26. Typing and sending a list of words appends each word and a line
    feed to the console, emits the words in order on [sig_send] and leaves
    the command box empty. *)
Theorem type_and_send_echoes (words : list string) (ui : CommandLine) :
  let ui' := type_and_send words ui in
  consoleText ui'
  = consoleText ui +:+ foldr String.append "" (map (fun word => word +:+ LF) words)
  /\ sig_send ui' = sig_send ui ++ words
  /\ commandEdit ui' = match words with [] => commandEdit ui | _ => "" end.
Proof.
  revert ui. induction words as [|word words IH]; intros ui.
  - cbn. split; [by rewrite string_app_empty_r|]. by rewrite app_nil_r.
  - change (type_and_send (word :: words) ui)
      with (type_and_send words
              (sendButtonPressed {| consoleText := consoleText ui;
                                    commandEdit := word;
                                    sig_send := sig_send ui |})).
    match goal with |- context [type_and_send words ?u] => set (ui1 := u) end.
    destruct (IH ui1) as (Hconsole & Hsent & Hedit). cbn zeta.
    rewrite Hconsole, Hsent, Hedit. subst ui1. cbn.
    split; [by rewrite string_app_assoc|].
    split; [by rewrite <- app_assoc|]. by destruct words.
Qed.

Section ReplyFacts.
Context {X H : Type} `{!RadioRelay X} `{!HardwareModel H}.
Implicit Type c : @SimConnection X H.


(** X29. The read loop ends: with one pass more than there are unread
    bytes it has left by its [return] or by an exception. *)
Theorem run_ends c :
  exists c' exit,
    _run (S (length (pending (stdout c)))) c = (c', Ok exit)
    /\ exit <> OutOfFuel
    /\ (length (pending (stdout c')) <= length (pending (stdout c)))%nat.
Proof.
  destruct (run_total c) as (c' & exit & Hrun & Hexit).
  exists c', exit. split; [exact Hrun|]. split; [exact Hexit|].
  pose proof (moves_on_run (S (length (pending (stdout c)))) c) as Hfw.
  rewrite Hrun in Hfw. destruct Hfw as [Hsuffix _ _].
  by apply suffix_length.
Qed.
End ReplyFacts.

(* ===================================================================== *)
(** ** Examples of the further properties *)
(* ===================================================================== *)

(** The length bytes 01 02 are 258; one byte alone cannot be unpacked. *)
Lemma getLength_example :
  let c := running (fixed_hw 0 []) [x01; x02; x03] in
  let short := running (fixed_hw 0 []) [x01] in
  (exists c', _getLength c = (c', Ok 258) /\ pending (stdout c') = [x03])
  /\ (exists c', _getLength short
                 = (c', Raise (ValueError
                                 "not enough values to unpack (expected 2, got 1)"))
                 /\ pending (stdout c') = []).
Proof.
  intros c short. split.
  - destruct (proj1 (getLength_big_endian c) x01 x02 [x03] ltac:(reflexivity))
      as (c' & Hlen & Hrest & _).
    by exists c'.
  - destruct (proj2 (getLength_big_endian short)) as (c' & Hlen & Hrest);
      [cbn; lia|].
    by exists c'.
Defined.

(** The Radio frame for the payload AB is read back as opcode 0x52, length
    2 and AB. *)
Lemma frame_read_back_example :
  let c := running (fixed_hw 0 []) [] in
  exists frame,
    stdin (_send_sim_packet SimTxId.RADIO [x41; x42] c).1 = stdin c ++ frame
    /\ frame = [x52; x00; x02; x41; x42]
    /\ forall rest,
         exists r1 r2 r3,
           stdout_read 1 (running (fixed_hw 0 []) (frame ++ rest)) = (r1, Ok [x52])
           /\ _getLength r1 = (r2, Ok 2)
           /\ stdout_read 2 r2 = (r3, Ok [x41; x42])
           /\ pending (stdout r3) = rest.
Proof.
  intros c.
  destruct (frame_read_back SimTxId.RADIO [x41; x42] c) as (frame & Hin & Hlen & Hback);
    [unfold SimTxId.RADIO; lia | cbn; lia |].
  exists frame. split; [exact Hin|].
  assert (frame = [x52; x00; x02; x41; x42]) as Hframe.
  { apply (app_inv_head (stdin c)). rewrite <- Hin. vm_compute. reflexivity. }
  split; [exact Hframe|].
  intros rest. exact (Hback (running (fixed_hw 0 []) (frame ++ rest)) rest ltac:(reflexivity)).
Defined.

(** An opcode of 256 does not fit one byte: nothing is written. *)
Lemma send_sim_packet_overflow_example :
  let c := running (fixed_hw 0 []) [] in
  _send_sim_packet 256 [x41] c = (c, Raise OverflowError)
  /\ exists c', _send_sim_packet 0x52 [x41] c = (c', Ok tt)
                /\ stdin c' = [x52; x00; x01; x41].
Proof.
  intros c. split.
  - apply (proj2 (send_sim_packet_overflow 256 [x41] c)). lia.
  - destruct (proj1 (send_sim_packet_overflow 0x52 [x41] c)) as (c' & Hrun & Hin & _);
      [cbn; lia|].
    exists c'. split; [exact Hrun|]. rewrite Hin. reflexivity.
Defined.

(** A Radio frame with the payload AB, and one without payload. *)
Lemma radio_frame_example :
  let c := running (fixed_hw 0 []) [x52; x00; x02; x41; x42; x07] in
  let e := running (fixed_hw 0 []) [x52; x00; x00; x07] in
  (exists c', _run_body c = (c', Ok false)
              /\ from_rocket (_xbee c') = [[x41; x42]]
              /\ pending (stdout c') = [x07]
              /\ trace c' = [])
  /\ (exists e', _run_body e = (e', Ok false)
                 /\ from_rocket (_xbee e') = [[]]
                 /\ trace e' = [empty_radio_warning (hwid e)]).
Proof.
  intros c e. split.
  - destruct (radio_frame_forwarded c x00 x02 [x41; x42; x07]
                {| to_rocket := []; from_rocket := [[x41; x42]];
                   relay_stopped := false |} (Ok tt) ltac:(reflexivity) ltac:(reflexivity))
      as (c' & Hrun & Hx & Hrest & _ & _ & Htrace).
    exists c'. split; [exact Hrun|]. rewrite Hx, Hrest, Htrace. by repeat split.
  - destruct (radio_frame_forwarded e x00 x00 [x07]
                {| to_rocket := []; from_rocket := [[]];
                   relay_stopped := false |} (Ok tt) ltac:(reflexivity) ltac:(reflexivity))
      as (e' & Hrun & Hx & _ & _ & _ & Htrace).
    exists e'. split; [exact Hrun|]. rewrite Hx, Htrace. by repeat split.
Defined.

(** Pin 3 set to 1. *)
Lemma digital_pin_write_example :
  let c := running (fixed_hw 0 []) [x50; x00; x02; x03; x01] in
  exists c',
    _run_body c = (c', Ok false)
    /\ pin_writes (_hw_sim c') = [(3, 1)]
    /\ trace c'
       = [Log INFO "SIM: Pin 3 set to 1 (HWID=tantalus_stage_1SIM_CONN_HWID)"].
Proof.
  intros c.
  destruct (digital_pin_write_forwarded c x03 x01 []
              {| analog_value := 0; reading := []; pin_writes := [(3, 1)];
                 hw_stopped := false |} ltac:(reflexivity) ltac:(reflexivity))
    as (c' & Hrun & Hhw & _ & _ & _ & Htrace).
  exists c'. split; [exact Hrun|]. rewrite Hhw, Htrace. split; reflexivity.
Defined.

(** A Buzzer frame that declares two bytes. *)
Lemma wrong_length_example :
  let c := running (fixed_hw 0 []) [x07; x00; x02; x05; x05] in
  exists c',
    _run_body c = (c', Raise AssertionError)
    /\ pending (stdout c') = [x05; x05]
    /\ trace c' = [].
Proof.
  intros c.
  destruct (wrong_length_rejected c x07 x00 x02 1 [x05; x05])
    as (c' & Hrun & Hrest & _ & _ & _ & Htrace);
    [ left | reflexivity | discriminate | ].
  by exists c'.
Defined.

(** The stream closes: the exception is logged on a running connection and
    not on one that is shutting down. *)
Lemma run_exception_logging_example :
  let c := running (fixed_hw 0 []) [] in
  let s := set_shutting_down true c in
  (exists c', _run 1 c = (c', Ok (Excepted IndexError))
     /\ trace c'
        = [LogException
             "Error in SIM connection. (HWID=tantalus_stage_1SIM_CONN_HWID)"
             IndexError;
           Log WARNING
             "SIM connection thread shut down (HWID=tantalus_stage_1SIM_CONN_HWID)"])
  /\ (exists s', _run 1 s = (s', Ok (Excepted IndexError))
        /\ trace s'
           = [Log WARNING
                "SIM connection thread shut down (HWID=tantalus_stage_1SIM_CONN_HWID)"]).
Proof.
  intros c s. split.
  - assert (_run 1 c = ((_run 1 c).1, Ok (Excepted IndexError))) as Hrun
      by (vm_compute; reflexivity).
    destruct (run_exception_logging 1 c _ IndexError Hrun)
      as (c1 & Hloop & _ & Htrace & _).
    exists (_run 1 c).1. split; [exact Hrun|]. vm_compute. reflexivity.
  - assert (_run 1 s = ((_run 1 s).1, Ok (Excepted IndexError))) as Hrun
      by (vm_compute; reflexivity).
    destruct (run_exception_logging 1 s _ IndexError Hrun)
      as (c1 & Hloop & _ & Htrace & _).
    exists (_run 1 s).1. split; [exact Hrun|]. vm_compute. reflexivity.
Defined.

(** The firmware's output ends at once. *)
Lemma closed_stream_example :
  let c := running (fixed_hw 0 []) [] in
  exists c',
    _run 1 c = (c', Ok (Excepted IndexError))
    /\ trace c' = exception_records c IndexError
    /\ stdin c' = [].
Proof.
  intros c.
  destruct (closed_stream_ends_run 0 0 c c ltac:(reflexivity) ltac:(reflexivity))
    as (c' & Hrun & Htrace & Hin & _).
  by exists c'.
Defined.

(** SYN is answered with ACK; anything else is not answered. *)
Lemma handshake_example :
  let c := awaiting_config (fixed_hw 0 []) [x53; x59; x4e; x01] in
  let n := awaiting_config (fixed_hw 0 []) [x53; x59; x4d; x01] in
  (exists c', _rocket_handshake c = (c', Ok tt)
              /\ stdin c' = [x41; x43; x4b]
              /\ pending (stdout c') = [x01])
  /\ (exists n', _rocket_handshake n = (n', Raise AssertionError)
                 /\ stdin n' = []).
Proof.
  intros c n. split.
  - destruct (proj1 (handshake_needs_syn c) ltac:(reflexivity)) as (c' & Hrun & Hin & Hrest & _).
    by exists c'.
  - destruct (proj2 (handshake_needs_syn n)) as (n' & Hrun & Hin & _);
      [discriminate|].
    by exists n'.
Defined.

(** A Config payload that stops after five bytes is accepted; one of four
    bytes is not. *)
Lemma init_accepts_example :
  let five := [x53; x59; x4e; x01; x00; x08; x04; x00; x00; x00; xc0] in
  let four := [x53; x59; x4e; x01; x00; x08; x04; x00; x00; x00] in
  (exists c, SimConnection_init "tantalus_stage_1" (fixed_hw 0 []) idle_relay five
             = (c, Ok tt))
  /\ ~ (exists c, SimConnection_init "tantalus_stage_1" (fixed_hw 0 []) idle_relay four
                  = (c, Ok tt)).
Proof.
  intros five four. split.
  - apply (proj2 (init_accepts_iff "tantalus_stage_1" (fixed_hw 0 []) idle_relay five)).
    exists [x04; x00; x00; x00; xc0]. split; [reflexivity|cbn; lia].
  - intros Hok.
    apply (proj1 (init_accepts_iff "tantalus_stage_1" (fixed_hw 0 []) idle_relay four))
      in Hok as (tail & Hout & Hlen).
    injection Hout as <-. cbn in Hlen. lia.
Defined.

(** The hardware model answers 70000. *)
Lemma analog_read_out_of_range_example :
  let c := running (fixed_hw 70000 []) [x61; x00; x01; x03] in
  exists c',
    _run_body c = (c', Raise OverflowError) /\ stdin c' = [] /\ trace c' = [].
Proof.
  intros c.
  destruct (analog_read_out_of_range c x03 [] (fixed_hw 70000 []) 70000 ltac:(reflexivity) ltac:(reflexivity))
    as (c' & Hrun & _ & Hin & Htrace & _); [lia|].
  by exists c'.
Defined.

(** Sensor id 9. *)
Lemma sensor_read_unknown_kind_example :
  let c := running (fixed_hw 0 [0x3F800000]) [x73; x00; x01; x09] in
  exists c',
    _run_body c = (c', Raise (KeyError 9)) /\ stdin c' = [] /\ trace c' = [].
Proof.
  intros c.
  destruct (sensor_read_unknown_kind c x09 [] ltac:(reflexivity))
    as (c' & Hrun & _ & Hin & Htrace & _); [cbn; lia|].
  by exists c'.
Defined.

(** A connection built from SYN and the Config frame of the scenario. *)
Lemma init_answers_endianness_example :
  let out := [x53; x59; x4e; x01; x00; x08;
              x04; x00; x00; x00; xc0; x00; x00; x00; x07; x00; x01; x05] in
  let c := (SimConnection_init "tantalus_stage_1" (fixed_hw 0 []) idle_relay out).1 in
  isIntBigEndian c = (c, Ok true)
  /\ isFloatBigEndian c = (c, Ok true)
  /\ isIntBigEndian (_run 5 c).1 = ((_run 5 c).1, Ok true).
Proof.
  intros out c.
  assert (SimConnection_init "tantalus_stage_1" (fixed_hw 0 []) idle_relay out
          = (c, Ok tt)) as Hinit by (vm_compute; reflexivity).
  destruct (init_answers_endianness _ _ _ _ _ Hinit) as (i & f & Hi & Hf & Hrun).
  assert (i = true) as -> by (vm_compute in Hi; congruence).
  assert (f = true) as -> by (vm_compute in Hf; congruence).
  split; [exact Hi|]. split; [exact Hf|].
  exact (proj1 (Hrun 5%nat (_run 5 c).1 (_run 5 c).2 (surjective_pairing _))).
Defined.


(** Bit 2 of 5 is set, bit 1 is not; bit -1 does not exist. *)
Lemma bitfrombyte_example :
  bitfrombyte 5 2 = Ok 1
  /\ bitfrombyte 5 1 = Ok 0
  /\ bitfrombyte 5 (-1) = Raise (ValueError "negative shift count").
Proof.
  split; [|split].
  - apply (proj1 (bitfrombyte_is_testbit 5 2)). lia.
  - apply (proj1 (bitfrombyte_is_testbit 5 1)). lia.
  - apply (proj2 (bitfrombyte_is_testbit 5 (-1))). lia.
Defined.

(** 00 00 01 02 is 258 most significant byte first, and 02 01 00 00 the
    other way round. *)
Lemma fourtoint_example :
  let p := PacketParser_init example_ids in
  let big := {| self := set_endianness (Some true) (Some true) p;
                byte_stream := []; emitted := [] |} in
  let little := {| self := set_endianness (Some false) (Some false) p;
                   byte_stream := []; emitted := [] |} in
  fourtoint [x00; x00; x01; x02] big = (big, Ok 258)
  /\ fourtoint [x02; x01; x00; x00] little = (little, Ok 258)
  /\ fourtoint [x01; x02] big = (big, Raise AssertionError).
Proof.
  intros p big little. split; [|split].
  - apply (proj1 (proj2 (fourtoint_bijection big)) 258). lia.
  - apply (proj1 (proj2 (fourtoint_bijection little)) 258). lia.
  - apply (proj2 (proj2 (fourtoint_bijection big)) [x01; x02]). discriminate.
Defined.

(** An empty stream, and a Message header cut short. *)
Lemma extract_header_errors_example :
  let p := set_endianness (Some true) (Some true) (PacketParser_init example_ids) in
  let empty := {| self := p; byte_stream := []; emitted := [] |} in
  let short := {| self := p; byte_stream := [x01; x00; x00]; emitted := [] |} in
  extract example_ids empty = (empty, Raise IndexError)
  /\ extract example_ids short = (empty, Raise AssertionError).
Proof.
  intros p empty short.
  assert (big_endian_ints p <> None /\ big_endian_floats p <> None) as [Hi Hf]
    by (split; discriminate).
  split.
  - apply (proj1 (extract_header_errors example_ids empty Hi Hf)). reflexivity.
  - apply (proj2 (extract_header_errors example_ids short Hi Hf) x01 [x00; x00]);
      [reflexivity | reflexivity | cbn; lia].
Defined.

(** An Event subpacket with code 7. *)
Lemma extract_event_example :
  let p := PacketParser_init example_ids in
  let d := {| self := set_endianness (Some true) (Some true) p;
              byte_stream := [x02; x00; x00; x01; x02; x07; x09];
              emitted := [] |} in
  extract example_ids d
  = ({| self := p; byte_stream := [x09]; emitted := [] |},
     Ok (<[inl 0x1D := VInt 258]> {[ inl 0x02 := VInt 7 ]})).
Proof.
  intros p d.
  apply (extract_event example_ids d x02 x07 [x00; x00; x01; x02] [x09]);
    try discriminate; reflexivity.
Defined.


(** A Config subpacket: simulated, second stage, forty letters A. *)
Lemma extract_config_example :
  let version := replicate 40 x41 in
  let d := {| self := set_endianness (Some true) (Some true)
                        (PacketParser_init example_ids);
              byte_stream := [x03; x00; x00; x01; x02; x01; x01] ++ version;
              emitted := [] |} in
  exists d' record,
    extract example_ids d = (d', Ok record)
    /\ byte_stream d' = []
    /\ record !! inr IS_SIM = Some (VBool true)
    /\ record !! inr DEVICE_TYPE = Some (VDevice TANTALUS_STAGE_2)
    /\ record !! inr VERSION_ID
       = Some (VStr "AAAAAAAAAAAAAAAAAAAAAAAAAAAAAAAAAAAAAAAA")
    /\ record !! inl 0x1D = Some (VInt 258)
    /\ emitted d'
       = [Log INFO "Config: SIM? True, Rocket type = DeviceType.TANTALUS_STAGE_2, Version ID = AAAAAAAAAAAAAAAAAAAAAAAAAAAAAAAAAAAAAAAA";
          Increment "config"].
Proof.
  intros version d.
  pose proof (extract_config example_ids d x03 x01 x01 [x00; x00; x01; x02]
                version [] TANTALUS_STAGE_2) as Hcfg.
  cbn zeta in Hcfg. eexists _, _. split.
  - apply Hcfg; try discriminate; reflexivity.
  - repeat split; vm_compute; reflexivity.
Defined.

(** A parser registered for id 0x40 that reads one byte. *)
Lemma register_packet_example :
  let one_byte : Header -> M (list byte) Dict :=
    fun h bs => match bs with
                | b :: bs' => (bs', Ok {[ inl (subpacket_id h) := VInt (b2z b) ]})
                | [] => (bs, Raise IndexError)
                end in
  let p := register_packet 0x40 one_byte (PacketParser_init example_ids) in
  let h := {| subpacket_id := 0x40; timestamp := 0 |} in
  parse_data example_ids h {| self := p; byte_stream := [x05; x06]; emitted := [] |}
  = ({| self := p; byte_stream := [x06]; emitted := [] |},
     Ok {[ inl 0x40 := VInt 5 ]})
  /\ packetTypeToParser p !! 0x01 = Some Bound_message.
Proof.
  intros one_byte p h.
  destruct (register_packet_dispatch example_ids (PacketParser_init example_ids)
              0x40 one_byte) as (_ & _ & Hother & Hrun).
  split.
  - exact (Hrun h [x05; x06] [] ltac:(reflexivity)).
  - fold p in Hother. rewrite Hother by discriminate. vm_compute. reflexivity.
Defined.

(** The length byte says five, three bytes follow. *)
Lemma message_truncated_example :
  let p := PacketParser_init example_ids in
  let h := {| subpacket_id := 0x01; timestamp := 0 |} in
  let d := {| self := p; byte_stream := [x05; x48; x45; x4c]; emitted := [] |} in
  let bad := {| self := p; byte_stream := [x02; x48; xff; x4c]; emitted := [] |} in
  message example_ids h d
  = ({| self := p; byte_stream := [];
        emitted := [Log INFO "Incoming message: HEL"] |},
     Ok {[ inl 0x01 := VStr "HEL" ]})
  /\ message example_ids h bad
     = ({| self := p; byte_stream := [x4c]; emitted := [] |},
        Raise UnicodeDecodeError).
Proof.
  intros p h d bad. split.
  - apply (proj1 (message_reads_what_is_there example_ids d h x05 [x48; x45; x4c]
                    ltac:(reflexivity))).
    reflexivity.
  - apply (proj2 (message_reads_what_is_there example_ids bad h x02 [x48; xff; x4c]
                    ltac:(reflexivity))).
    reflexivity.
Defined.

(** Two labels, altitude and state; the window has no widget for a third. *)
Lemma update_labels_example :
  let altitude : Label unit :=
    {| label_name := "Altitude"; label_update := fun _ => "1200" |} in
  let state : Label unit :=
    {| label_name := "State"; label_update := fun _ => "ASCENT" |} in
  let gps : Label unit :=
    {| label_name := "Gps"; label_update := fun _ => "0, 0" |} in
  let w := {| widgets := {[ "AltitudeLabel" := ""; "StateLabel" := "";
                            "PressureLabel" := "-" ]};
              app_data := tt |} in
  (update_labels [altitude; state] w).2 = inr tt
  /\ widgets (update_labels [altitude; state] w).1 !! "PressureLabel" = Some "-"
  /\ (update_labels [altitude; gps] w).2 <> inr tt.
Proof.
  intros altitude state gps w.
  destruct (update_labels_frame unit [altitude; state] w) as (_ & _ & Hframe & Hiff).
  destruct (update_labels_frame unit [altitude; gps] w) as (_ & _ & _ & Hiff').
  split; [|split].
  - apply (proj2 Hiff). intros label [->|[->|[]%elem_of_nil]%elem_of_cons]%elem_of_cons;
      vm_compute; eauto.
  - rewrite Hframe; [reflexivity|].
    intros [E|[E|[]%elem_of_nil]%elem_of_cons]%elem_of_cons; discriminate E.
  - intros Hok. pose proof (proj1 Hiff' Hok) as Hall.
    destruct (Hall gps) as [text Htext]; [right; left|].
    vm_compute in Htext. discriminate Htext.
Defined.

Section BuzzerFacts.
Context {X H : Type} `{!RadioRelay X} `{!HardwareModel H}.
Implicit Type c : @SimConnection X H.

(** X27. A Buzzer frame logs the song type and does nothing else: nothing
    is written to the firmware and neither collaborator is called. *)
Theorem buzzer_only_logs c (song : byte) (rest : list byte) :
  pending (stdout c) = [x07; x00; x01; song] ++ rest ->
  exists c',
    _run_body c = (c', Ok false)
    /\ trace c'
       = trace c ++ [Log INFO ("SIM: Bell rang with song type " +:+ pretty (b2z song)
                               +:+ " (HWID=" +:+ hwid c +:+ ")")]
    /\ pending (stdout c') = rest
    /\ stdin c' = stdin c
    /\ _xbee c' = _xbee c
    /\ _hw_sim c' = _hw_sim c.
Proof.
  intros Hp.
  rewrite (run_body_dispatch x07 ([x00; x01; song] ++ rest) _handleBuzzer c Hp)
    by (rewrite packetHandlers_lookup; reflexivity).
  unfold _handleBuzzer.
  erewrite bind_ok by (apply (getLength_frame x00 x01); reflexivity).
  unfold bind at 1, assert.
  change (Z.lor (Z.shiftl (b2z x00) 8) (b2z x01) =? 1) with true. cbn [ret].
  erewrite bind_ok by (apply (stdout_read_app 1 [song] rest); reflexivity).
  unfold bind at 1, index0, ret at 1.
  unfold bind, get, emit, modify.
  eexists. split; [reflexivity|]. by repeat split.
Qed.
End BuzzerFacts.

(** The Buzzer frame 07 00 01 05. *)
Lemma buzzer_only_logs_example :
  let c := running (fixed_hw 0 []) [x07; x00; x01; x05] in
  exists c',
    _run_body c = (c', Ok false)
    /\ trace c'
       = [Log INFO "SIM: Bell rang with song type 5 (HWID=tantalus_stage_1SIM_CONN_HWID)"]
    /\ stdin c' = [].
Proof.
  intros c.
  destruct (buzzer_only_logs c x05 [] ltac:(reflexivity))
    as (c' & Hrun & Htrace & _ & Hin & _).
  exists c'. split; [exact Hrun|]. rewrite Htrace, Hin. split; reflexivity.
Defined.
